(** * gridstatusio: the data-fetch engine of [GridStatusClient]

    A shallow embedding of [src/gridstatusio/gs_client.py]: the retry loop of
    [GridStatusClient.get], the pagination loop of
    [GridStatusClient.get_dataset] and the datetime normalisation that ends
    it, followed by the properties that the specification states about them.

    Conventions of the embedding.
    - Python [int]s are [Z]; Python [None]-able values are [option]s.
    - A [dict] is a [gmap] with string keys.
    - The outside world is a trace of events (requests sent, sleeps), threaded
      through the code by a small state-and-exception monad [M].
    - The HTTP server is a function from the number of requests it has
      already received and the request to the response; it always answers
      (the connection errors of [requests.get] are left out).
    - [log], [time.time] and [warnings.warn] only print or measure; they are
      left out.
    - pandas is not part of the repository: the few operations the client
      calls are given their documented behaviour on a frame that is a header
      and a list of rows; parsing timestamps, reading CSV, the time-zone
      database and [utils.handle_date] are parameters. *)

From stdpp Require Import base option list strings gmap.
From Stdlib Require Import ZArith Lia.

Local Open Scope string_scope.
Local Open Scope list_scope.
Local Open Scope Z_scope.

(** ** Values *)

(** A JSON scalar as it arrives in a data row.  A number is kept as the
    decimal [mantissa * 10 ^ exponent]; the client never computes with it. *)
Inductive scalar :=
| SNull
| SBool (b : bool)
| SNum (mantissa exponent : Z)
| SStr (s : string).

(** A cell of a [DataFrame]: a raw scalar, a time-zone aware pandas
    [Timestamp] (an instant in nanoseconds since the epoch together with the
    zone it is displayed in), or the missing timestamp [NaT]. *)
Inductive cell :=
| Raw (v : scalar)
| Timestamp (instant : Z) (zone : string)
| NaT.

(** Values that are put into the query parameters. *)
Inductive pyval :=
| PyNone
| PyStr (s : string)
| PyInt (n : Z)
| PyBool (b : bool)
| PyList (l : list string).

#[global] Instance scalar_eq_dec : EqDecision scalar.
Proof. solve_decision. Defined.
#[global] Instance cell_eq_dec : EqDecision cell.
Proof. solve_decision. Defined.
#[global] Instance pyval_eq_dec : EqDecision pyval.
Proof. solve_decision. Defined.

(** Truthiness of an optional string ([if tz:], [timezone and ...]). *)
Definition truthy (o : option string) : bool :=
  match o with
  | None => false
  | Some s => negb (bool_decide (s = ""))
  end.

(** ** Requests, responses, events *)

Record Request := {
  url : string;
  params : gmap string pyval;
  headers : gmap string string
}.

Record DataFrame := {
  columns : list string;
  rows : list (list cell)
}.

Record Meta := {
  hasNextPage : option bool;
  next_cursor : option string  (* meta["cursor"] *)
}.

Record ColumnMeta := {
  name : string;
  is_datetime : bool
}.

Record DatasetMetadata := {
  all_columns : option (list ColumnMeta)
}.

(** The body of a dataset query in the array-of-arrays JSON schema:
    [data["data"][0]] is the header, [data["data"][1:]] the rows. *)
Record Payload := {
  data_header : list string;
  data_rows : list (list scalar);
  meta : Meta;
  dataset_metadata : DatasetMetadata
}.

Record Response := {
  status_code : Z;
  text : string;
  json : option Payload  (* [None]: the body is not JSON, [response.json()] raises *)
}.

Inductive event :=
| Sent (r : Request)
| Slept (seconds : Z).

Abbreviation trace := (list event).

Definition is_sent (e : event) : bool :=
  match e with Sent _ => true | Slept _ => false end.

Definition requests_sent (tr : trace) : nat := length (filter is_sent tr).

Fixpoint total_slept (tr : trace) : Z :=
  match tr with
  | [] => 0
  | Sent _ :: tr' => total_slept tr'
  | Slept d :: tr' => d + total_slept tr'
  end.

(** ** Exceptions and the monad *)

Inductive exn :=
| NoApiKey                                (* Exception("No API key provided. ...") *)
| BadRequestFormat                        (* AssertionError("request_format must be 'json' or 'csv'") *)
| TzAndTimezone                           (* ValueError("'tz' and 'timezone' parameters cannot both be set.") *)
| RateLimited                             (* Exception("Rate limited. Exceeded maximum number of retries") *)
| HttpError (status : Z) (body : string)  (* Exception(f"Error {status}: {text}") *)
| UnboundLocalError (var : string)
| AttributeError (attr : string)          (* 'NoneType' object has no attribute ... *)
| JSONDecodeError
| ValueError (msg : string)
| KeyError (key : string)
| InvalidIndexError
| UnknownTimeZoneError (zone : string)
| HandleDateError.

Inductive outcome (A : Type) :=
| Returns (a : A) (tr : trace)
| Raises (e : exn) (tr : trace)
| OutOfFuel.
Arguments Returns {A} a tr.
Arguments Raises {A} e tr.
Arguments OutOfFuel {A}.

Definition M (A : Type) : Type := trace -> outcome A.

#[global] Instance M_ret : MRet M := fun A a tr => Returns a tr.

#[global] Instance M_bind : MBind M := fun A B k m tr =>
  match m tr with
  | Returns a tr' => k a tr'
  | Raises e tr' => Raises e tr'
  | OutOfFuel => OutOfFuel
  end.

Definition raise {A} (e : exn) : M A := fun tr => Raises e tr.

(** [time.sleep]: a negative duration raises [ValueError]. *)
Definition sleep (seconds : Z) : M unit :=
  fun tr =>
    if seconds <? 0 then Raises (ValueError "sleep length must be non-negative") tr
    else Returns tt (tr ++ [Slept seconds]).

Definition is_returns {A} (o : outcome A) : bool :=
  match o with Returns _ _ => true | _ => false end.

Definition value_of {A} (o : outcome A) : option A :=
  match o with
  | Returns a _ => Some a
  | _ => None
  end.

Definition error_of {A} (o : outcome A) : option exn :=
  match o with
  | Raises e _ => Some e
  | _ => None
  end.

Definition trace_of {A} (o : outcome A) : option trace :=
  match o with
  | Returns _ tr | Raises _ tr => Some tr
  | OutOfFuel => None
  end.

(** ** Strings: the three [str] methods the client uses *)

(** [s.endswith(suffix)]: some tail of [s] is [suffix]. *)
Fixpoint endswith (s suffix : string) : bool :=
  bool_decide (s = suffix) ||
  match s with
  | EmptyString => false
  | String _ s' => endswith s' suffix
  end.

(** [s.replace(old, new)] for a non-empty [old]: occurrences are replaced from
    left to right and do not overlap; [skip] counts the characters of a
    matched occurrence that are still to be dropped. *)
Fixpoint replace_from (old new : string) (skip : nat) (s : string) : string :=
  match s with
  | EmptyString => EmptyString
  | String c s' =>
      match skip with
      | S k => replace_from old new k s'
      | O =>
          if String.prefix old s
          then new +:+ replace_from old new (String.length old - 1)%nat s'
          else String c (replace_from old new O s')
      end
  end.

Definition replace (s old new : string) : string := replace_from old new 0 s.

(** [sep.join(l)] *)
Definition join (sep : string) (l : list string) : string := String.concat sep l.

(** [a or b] on optional strings. *)
Definition py_or (a b : option string) : option string :=
  if truthy a then a else b.

(** ** pandas: the operations on [DataFrame] that the client calls *)

(** [pd.DataFrame(data, columns=header)] on a list of rows: no rows give an
    empty frame; otherwise the longest row must be as long as the header, and
    shorter rows are filled with missing values. *)
Definition pad_row (width : nat) (r : list scalar) : list cell :=
  (Raw <$> r) ++ replicate (width - length r)%nat (Raw SNull).

Definition DataFrame_of_rows (header : list string) (data : list (list scalar))
    : option DataFrame :=
  match data with
  | [] => Some {| columns := header; rows := [] |}
  | _ =>
      if decide (max_list (length <$> data) = length header)
      then Some {| columns := header; rows := pad_row (length header) <$> data |}
      else None  (* ValueError: the columns passed do not match the data *)
  end.

(** Column labels in order of first appearance. *)
Definition first_occurrences (l : list string) : list string :=
  reverse (remove_dups (reverse l)).

(** The cell of [row] (laid out along [header]) under the label [h], a
    missing value when [header] has no such label. *)
Definition cell_at (header : list string) (row : list cell) (h : string) : cell :=
  match list_find (λ h', h' = h) header with
  | Some (i, _) => default (Raw SNull) (row !! i)
  | None => Raw SNull
  end.

Definition reindex (header target : list string) (row : list cell) : list cell :=
  cell_at header row <$> target.

(** [pd.concat(dfs).reset_index(drop=True)]: frames with equal column labels
    are stacked; otherwise the labels are united (outer join, first
    appearance first), which needs every frame's labels to be unique, and
    absent cells are missing values.  Rows are numbered by position, which is
    what [reset_index(drop=True)] leaves. *)
Definition pd_concat (dfs : list DataFrame) : M DataFrame :=
  match dfs with
  | [] => raise (ValueError "No objects to concatenate")
  | df0 :: rest =>
      if bool_decide (Forall (λ df, columns df = columns df0) rest)
      then mret {| columns := columns df0; rows := concat (rows <$> dfs) |}
      else if bool_decide (Forall (λ df, NoDup (columns df)) dfs)
      then
        let cols := first_occurrences (concat (columns <$> dfs)) in
        mret {| columns := cols;
                rows := concat ((λ df, reindex (columns df) cols <$> rows df) <$> dfs) |}
      else raise InvalidIndexError
  end.

(** Apply [f] to the cells of [row] that stand under the label [col_name]. *)
Fixpoint on_column (f : cell → option cell) (header : list string) (col_name : string)
    (row : list cell) : option (list cell) :=
  match header, row with
  | h :: header', c :: row' =>
      c' ← (if decide (h = col_name) then f c else Some c);
      row'' ← on_column f header' col_name row';
      Some (c' :: row'')
  | _, _ => Some row
  end.

Definition occurrences (col_name : string) (header : list string) : nat :=
  length (filter (λ h, h = col_name) header).

(** [df[col_name] = g(df[col_name])] for a function [g] that works value by
    value and fails as a whole when one value fails.  A label that occurs
    twice selects a frame instead of a series, which [pd.to_datetime] refuses
    ("cannot assemble with duplicate keys"). *)
Definition assign_column (f : cell → option cell) (failure : exn) (df : DataFrame)
    (col_name : string) : M DataFrame :=
  match occurrences col_name (columns df) with
  | O => raise (KeyError col_name)
  | S O =>
      match mapM (on_column f (columns df) col_name) (rows df) with
      | Some rows' => mret {| columns := columns df; rows := rows' |}
      | None => raise failure
      end
  | _ => raise (ValueError "cannot assemble with duplicate keys")
  end.

(** [df.rename(columns={old: new})] *)
Definition rename (df : DataFrame) (old new : string) : DataFrame :=
  {| columns := (λ h, if decide (h = old) then new else h) <$> columns df;
     rows := rows df |}.

(** [series.dt.tz_convert(zone)] on one value: the instant stays, the zone
    changes. *)
Definition tz_convert (zone : string) (c : cell) : option cell :=
  match c with
  | Timestamp t _ => Some (Timestamp t zone)
  | NaT => Some NaT
  | Raw _ => None
  end.

(** ** The client *)

Record GridStatusClient := {
  api_key : string;
  host : string;
  request_format : string;
  max_retries : Z
}.

(** The arguments of [get_dataset]. *)
Record DatasetArgs := {
  dataset : string;
  start : option string;
  end_ : option string;
  columns_ : option (list string);
  filter_column : option string;
  filter_value : pyval;
  filter_operator : string;
  publish_time : option string;
  resample : option string;
  resample_by : option (list string);
  resample_function : string;
  limit : option Z;
  page_size : option Z;
  tz : option string;
  timezone : option string;
  use_cursor_pagination : bool;
  sleep_time : Z
}.

(** The local variables of the pagination loop. *)
Record PageState := {
  page : Z;
  has_next_page : bool;
  dfs : list DataFrame;
  total_rows : Z;
  cursor : option string;
  st_dataset_metadata : option DatasetMetadata;
  st_filter_value : pyval
}.

Definition opt_str (o : option string) : pyval := from_option PyStr PyNone o.
Definition opt_int (o : option Z) : pyval := from_option PyInt PyNone o.

Definition always_datetime_columns : list string :=
  ["interval_start_utc"; "interval_end_utc"].

(** The page that a response carries when it is a 200 with a well-formed
    JSON body. *)
Definition read_page (r : Response) : option (DataFrame * Meta * DatasetMetadata) :=
  if bool_decide (status_code r = 200) then
    data ← json r;
    df ← DataFrame_of_rows (data_header data) (data_rows data);
    Some (df, meta data, dataset_metadata data)
  else None.

Section Client.

(** What lies outside [gs_client.py]. *)
Variable server : nat → Request → Response.        (* the API behind [requests.get] *)
Variable version : string.                         (* [gridstatusio.__version__] *)
Variable environ : gmap string string.             (* [os.environ] *)
Variable handle_date : string → option string → option string.
                                                   (* [utils.handle_date]; [None]: it raises *)
Variable read_csv : string → option DataFrame.     (* [pd.read_csv]; [None]: it raises *)
Variable parse_utc : scalar → option (option Z).
  (* [pd.to_datetime(_, utc=True)] on a raw value: [None] if it cannot be
     parsed, [Some None] for a missing value, else the instant *)
Variable known_zone : string → bool.               (* the time zone database *)

(** [requests.get(url, params=params, headers=headers)] *)
Definition requests_get (req : Request) : M Response :=
  fun tr => Returns (server (requests_sent tr) req) (tr ++ [Sent req]).

(** [GridStatusClient.__init__] *)
Definition init (api_key : option string) (host request_format : string)
    (max_retries : Z) : M GridStatusClient :=
  let api_key :=
    match api_key with
    | None => environ !! "GRIDSTATUS_API_KEY"
    | Some k => Some k
    end in
  match api_key with
  | None => raise NoApiKey
  | Some api_key =>
      if bool_decide (request_format ∈ ["json"; "csv"])
      then mret {| api_key := api_key; host := host;
                   request_format := request_format; max_retries := max_retries |}
      else raise BadRequestFormat
  end.

Definition initial_delay : Z := 1.

(** The [while retries <= self.max_retries] loop of [get] (lines 99-121).
    [response] is the local variable of that name, unbound ([None]) until
    the first request returns. *)
Fixpoint retry_loop (self : GridStatusClient) (req : Request) (fuel : nat)
    (retries : Z) (response : option Response) : M (option Response) :=
  if bool_decide (retries ≤ max_retries self) then
    match fuel with
    | O => fun _ => OutOfFuel
    | S fuel' =>
        response ← requests_get req;
        if bool_decide (status_code response = 200) then
          mret (Some response)
        else if bool_decide (status_code response = 429) &&
                bool_decide (retries = max_retries self) then
          raise RateLimited
        else if bool_decide (status_code response = 429) then
          let delay := initial_delay * 2 ^ retries in
          let retries := retries + 1 in
          sleep delay;;
          retry_loop self req fuel' retries (Some response)
        else
          raise (HttpError (status_code response) (text response))
    end
  else mret response.

(** The request that [get] sends: the headers, and the parameters completed
    with the wire format. *)
Definition get_request (self : GridStatusClient) (url : string)
    (params : gmap string pyval) : Request :=
  let headers : gmap string string :=
    <["x-api-key" := api_key self]>
    (<["x-client" := "gridstatusio-python"]>
    (<["x-client-version" := version]> ∅)) in
  let params :=
    match params !! "return_format" with
    | Some _ => params
    | None =>
        let params := <["return_format" := PyStr (request_format self)]> params in
        if bool_decide (request_format self = "json")
        then <["json_schema" := PyStr "array-of-arrays"]> params
        else params
    end in
  {| url := url; params := params; headers := headers |}.

(** Lines 126-137 of [get]: decoding the response. *)
Definition decode (self : GridStatusClient) (response : option Response)
    : M (DataFrame * option Meta * option DatasetMetadata) :=
  match response with
  | None => raise (UnboundLocalError "response")
  | Some response =>
      if bool_decide (request_format self = "json") then
        match json response with
        | None => raise JSONDecodeError
        | Some data =>
            match DataFrame_of_rows (data_header data) (data_rows data) with
            | None => raise (ValueError "columns passed do not match the data")
            | Some df => mret (df, Some (meta data), Some (dataset_metadata data))
            end
        end
      else if bool_decide (request_format self = "csv") then
        match read_csv (text response) with
        | None => raise (ValueError "read_csv")
        | Some df => mret (df, None, None)
        end
      else raise (UnboundLocalError "df")
  end.

(** [GridStatusClient.get] with [return_raw_response_json=False], as
    [get_dataset] calls it (the raw exit only serves
    [get_daily_peak_report]).  The loop runs at most [max_retries + 1] times,
    which is the fuel it is given. *)
Definition get (self : GridStatusClient) (url : string) (params : gmap string pyval)
    : M (DataFrame * option Meta * option DatasetMetadata) :=
  response ← retry_loop self (get_request self url params)
               (Z.to_nat (max_retries self + 1)) 0 None;
  decode self response.

(** The query parameters of one page (lines 346-377), with the value of
    [filter_value] after them. *)
Definition page_params (a : DatasetArgs) (start end_ : option string) (st : PageState)
    : gmap string pyval * pyval :=
  let params : gmap string pyval :=
    list_to_map [
      ("start_time", opt_str start);
      ("end_time", opt_str end_);
      ("limit", opt_int (limit a));
      ("page", PyInt (page st));
      ("page_size", opt_int (page_size a));
      ("resample_frequency", opt_str (resample a));
      ("resample_by", from_option (λ l, PyStr (join "," l)) PyNone (resample_by a));
      ("resample_function",
         if truthy (resample a) then PyStr (resample_function a) else PyNone);
      ("publish_time", opt_str (publish_time a));
      ("timezone", opt_str (timezone a))
    ] in
  let params :=
    if use_cursor_pagination a then <["cursor" := opt_str (cursor st)]> params
    else params in
  let '(params, filter_value) :=
    if bool_decide (filter_column a ≠ None) ||
       negb (bool_decide (st_filter_value st = PyStr ""))
    then
      let filter_value :=
        match st_filter_value st with
        | PyList l =>
            if bool_decide (filter_operator a = "in") then PyStr (join "," l)
            else PyList l
        | v => v
        end in
      (<["filter_operator" := PyStr (filter_operator a)]>
       (<["filter_value" := filter_value]>
       (<["filter_column" := opt_str (filter_column a)]> params)), filter_value)
    else (params, st_filter_value st) in
  let params :=
    match columns_ a with
    | Some cols => <["columns" := PyStr (join "," cols)]> params
    | None => params
    end in
  (params, filter_value).

(** One turn of the [while has_next_page] loop (lines 344-413). *)
Definition fetch_page (self : GridStatusClient) (a : DatasetArgs)
    (start end_ : option string) (st : PageState) : M PageState :=
  let '(params, filter_value) := page_params a start end_ st in
  let url := host self +:+ "/datasets/" +:+ dataset a +:+ "/query" in
  '(df, meta, dataset_metadata) ← get self url params;
  match meta with
  | None => raise (AttributeError "get")
  | Some meta =>
      let has_next_page := default false (hasNextPage meta) in
      let cursor := next_cursor meta in
      let total_rows := total_rows st + Z.of_nat (length (rows df)) in
      let dfs := dfs st ++ [df] in
      let page := page st + 1 in
      sleep (sleep_time a);;
      mret {| page := page; has_next_page := has_next_page; dfs := dfs;
              total_rows := total_rows; cursor := cursor;
              st_dataset_metadata := dataset_metadata;
              st_filter_value := filter_value |}
  end.

Fixpoint fetch_pages (self : GridStatusClient) (a : DatasetArgs)
    (start end_ : option string) (fuel : nat) (st : PageState) : M PageState :=
  if has_next_page st then
    match fuel with
    | O => fun _ => OutOfFuel
    | S fuel' =>
        st' ← fetch_page self a start end_ st;
        fetch_pages self a start end_ fuel' st'
    end
  else mret st.

Definition initial_state (a : DatasetArgs) : PageState :=
  {| page := 1; has_next_page := true; dfs := []; total_rows := 0;
     cursor := Some ""; st_dataset_metadata := None;
     st_filter_value := filter_value a |}.

(** *** Vocabulary for the statements about the page loop *)

(** The request of the loop's next turn. *)
Definition page_request (self : GridStatusClient) (a : DatasetArgs)
    (start end_ : option string) (st : PageState) : Request :=
  get_request self (host self +:+ "/datasets/" +:+ dataset a +:+ "/query")
    (page_params a start end_ st).1.

(** The loop's variables after a turn that received the page [p]. *)
Definition state_after (a : DatasetArgs) (start end_ : option string) (st : PageState)
    (p : DataFrame * Meta * DatasetMetadata) : PageState :=
  {| page := page st + 1;
     has_next_page := default false (hasNextPage p.1.2);
     dfs := dfs st ++ [p.1.1];
     total_rows := total_rows st + Z.of_nat (length (rows p.1.1));
     cursor := next_cursor p.1.2;
     st_dataset_metadata := Some p.2;
     st_filter_value := (page_params a start end_ st).2 |}.

(** From the state [st] on, the server answers the client's successive
    page requests (the [n]-th it receives, and so on) with [pages]. *)
Fixpoint serves (self : GridStatusClient) (a : DatasetArgs) (start end_ : option string)
    (st : PageState) (n : nat) (pages : list (DataFrame * Meta * DatasetMetadata)) : Prop :=
  match pages with
  | [] => True
  | p :: pages' =>
      read_page (server n (page_request self a start end_ st)) = Some p ∧
      serves self a start end_ (state_after a start end_ st p) (S n) pages'
  end.

(** The events of the turns that receive [pages]. *)
Fixpoint page_events (self : GridStatusClient) (a : DatasetArgs)
    (start end_ : option string) (st : PageState)
    (pages : list (DataFrame * Meta * DatasetMetadata)) : trace :=
  match pages with
  | [] => []
  | p :: pages' =>
      Sent (page_request self a start end_ st) :: Slept (sleep_time a) ::
      page_events self a start end_ (state_after a start end_ st p) pages'
  end.

Definition more_pages (p : DataFrame * Meta * DatasetMetadata) : bool :=
  default false (hasNextPage p.1.2).

(** *** Normalisation of the datetime columns (lines 422-455) *)

(** [pd.to_datetime(_, utc=True)] on one value. *)
Definition to_datetime (c : cell) : option cell :=
  match c with
  | Raw v =>
      match parse_utc v with
      | Some (Some t) => Some (Timestamp t "UTC")
      | Some None => Some NaT
      | None => None
      end
  | Timestamp t _ => Some (Timestamp t "UTC")
  | NaT => Some NaT
  end.

(** [next((col for col in all_columns if col["name"] == col_name), None)] *)
Definition col_metadata (all_columns : list ColumnMeta) (col_name : string)
    : option ColumnMeta :=
  head (filter (λ col, name col = col_name) all_columns).

Definition is_datetime_column (all_columns : list ColumnMeta) (col_name : string) : bool :=
  match col_metadata all_columns col_name with
  | Some col => is_datetime col
  | None => false
  end || bool_decide (col_name ∈ always_datetime_columns).

Definition non_utc (zone : option string) : bool :=
  truthy zone && negb (bool_decide (zone = Some "UTC")).

(** Does the column get converted and renamed (the condition of line 446)? *)
Definition converts (tz timezone : option string) (col_name : string) : bool :=
  non_utc tz || (non_utc timezone && negb (endswith col_name "_utc")).

Definition local_name (col_name : string) : string :=
  replace col_name "_utc" "" +:+ "_local".

(** The body of [for col_name in df.columns]. *)
Definition normalize_column (tz timezone : option string)
    (all_columns : list ColumnMeta) (df : DataFrame) (col_name : string) : M DataFrame :=
  if is_datetime_column all_columns col_name then
    df ← assign_column to_datetime (ValueError "to_datetime") df col_name;
    if converts tz timezone col_name then
      (* [timezone or tz] is a non-empty string on this branch *)
      let zone := default "" (py_or timezone tz) in
      if known_zone zone then
        df ← assign_column (tz_convert zone) (AttributeError "dt") df col_name;
        mret (rename df col_name (local_name col_name))
      else raise (UnknownTimeZoneError zone)
    else mret df
  else mret df.

(** The loop runs over the labels of the merged frame as they are when it
    starts; [df] is rebound by every [rename]. *)
Fixpoint normalize_columns (tz timezone : option string) (all_columns : list ColumnMeta)
    (df : DataFrame) (col_names : list string) : M DataFrame :=
  match col_names with
  | [] => mret df
  | col_name :: rest =>
      df ← normalize_column tz timezone all_columns df col_name;
      normalize_columns tz timezone all_columns df rest
  end.

Definition normalize (tz timezone : option string) (all_columns : list ColumnMeta)
    (df : DataFrame) : M DataFrame :=
  normalize_columns tz timezone all_columns df (columns df).

(** *** Vocabulary for the statements about normalisation *)

(** The instant a cell denotes: [None] if it denotes none, [Some None] for
    a missing timestamp. *)
Definition instant (c : cell) : option (option Z) :=
  match c with
  | Raw v => parse_utc v
  | Timestamp t _ => Some (Some t)
  | NaT => Some None
  end.



(** What the loop does, in the end, to the values of a column labelled [h]
    and to the label itself. *)
Definition column_action (tz timezone : option string) (all_columns : list ColumnMeta)
    (h : string) (c : cell) : option cell :=
  if is_datetime_column all_columns h then
    if converts tz timezone h
    then to_datetime c ≫= tz_convert (default "" (py_or timezone tz))
    else to_datetime c
  else Some c.

Definition column_label (tz timezone : option string) (all_columns : list ColumnMeta)
    (h : string) : string :=
  if is_datetime_column all_columns h && converts tz timezone h
  then local_name h else h.

(** A frame on which the loop has nothing left to do: every datetime label
    is kept as it is, occurs once, and stands over UTC timestamps. *)
Definition settled (tz timezone : option string) (all_columns : list ColumnMeta)
    (df : DataFrame) : Prop :=
  ∀ h, h ∈ columns df → is_datetime_column all_columns h = true →
    converts tz timezone h = false ∧
    occurrences h (columns df) = 1%nat ∧
    ∀ row j c, row ∈ rows df → columns df !! j = Some h → row !! j = Some c →
      to_datetime c = Some c.

(** [if d is not None: d = utils.handle_date(d, tz)] (lines 323-327) *)
Definition handle_optional_date (d : option string) (tz : option string)
    : M (option string) :=
  match d with
  | None => mret None
  | Some d =>
      match handle_date d tz with
      | Some d' => mret (Some d')
      | None => raise HandleDateError
      end
  end.

(** [GridStatusClient.get_dataset]; [fuel] bounds the number of pages. *)
Definition get_dataset (self : GridStatusClient) (a : DatasetArgs) (fuel : nat)
    : M DataFrame :=
  (if truthy (tz a) && truthy (timezone a) then raise TzAndTimezone else mret tt);;
  start ← handle_optional_date (start a) (tz a);
  end_ ← handle_optional_date (end_ a) (tz a);
  st ← fetch_pages self a start end_ fuel (initial_state a);
  df ← pd_concat (dfs st);
  match st_dataset_metadata st with
  | None => raise (AttributeError "get")
  | Some dataset_metadata =>
      let all_columns := default [] (all_columns dataset_metadata) in
      normalize (tz a) (timezone a) all_columns df
  end.

End Client.

(** [rows'] are [rows] with the cell at every position [j] of every row
    replaced by its image under [acts j]. *)
Definition rows_acted (acts : nat → cell → option cell) (rows rows' : list (list cell))
    : Prop :=
  Forall2 (λ row row', length row' = length row ∧ ∀ j, row' !! j = row !! j ≫= acts j)
    rows rows'.

(** The action on position [j] of the turns of the loop that are still to
    come when the first [n] labels are done and [rest] are left. *)
Definition acts_from (act : string → cell → option cell) (n : nat) (rest : list string)
    (j : nat) : cell → option cell :=
  if decide (j < n)%nat then Some else from_option act Some (rest !! (j - n)%nat).

(** The rows that [pd_concat] makes of the frames [dfs], frame after frame
    and row after row; [cols] are the labels of the result. *)
Definition stacked_rows (cols : list string) (dfs : list DataFrame) : list (list cell) :=
  if bool_decide (Forall (λ df, columns df = cols) dfs)
  then concat (rows <$> dfs)
  else concat ((λ df, reindex (columns df) cols <$> rows df) <$> dfs).

(** The bound on the number of pages that the specification attaches to a
    row limit: [ceil(limit / page_size) + 1]. *)
Definition claimed_page_bound (limit page_size : Z) : Z :=
  (limit + page_size - 1) / page_size + 1.

(** ** The catalogue: [GridStatusClient.list_datasets]

    The function is modelled for [return_list=True], where it returns the
    matching records; with [return_list=False] it prints them through
    [tabulate] and [colored], which is left out. *)

(** [needle in hay] on strings. *)
Fixpoint contains (needle hay : string) : bool :=
  String.prefix needle hay ||
  match hay with
  | EmptyString => false
  | String _ hay' => contains needle hay'
  end.

(** [df.to_dict("records")]: one dict per row, from label to value; of a
    label that occurs twice the last value is kept. *)
Definition to_dict_records (df : DataFrame) : list (gmap string cell) :=
  (λ row, list_to_map (reverse (zip (columns df) row))) <$> rows df.

(** [dataset[key]] *)
Definition item (dataset : gmap string cell) (key : string) : M cell :=
  match dataset !! key with
  | Some c => mret c
  | None => raise (KeyError key)
  end.

(** [dataset.get("description", "")], with [None] replaced by [""]
    (lines 160-162). *)
Definition dataset_description (dataset : gmap string cell) : cell :=
  match dataset !! "description" with
  | None => Raw (SStr "")
  | Some (Raw SNull) => Raw (SStr "")
  | Some c => c
  end.

Section Catalog.

Variable server : nat → Request → Response.
Variable version : string.
Variable read_csv : string → option DataFrame.
Variable lower : string → string.                    (* [str.lower] *)

(** [filter_term.lower() in x.lower()]: only a string has [lower]. *)
Definition term_in (term : string) (x : cell) : M bool :=
  match x with
  | Raw (SStr s) => mret (contains (lower term) (lower s))
  | _ => raise (AttributeError "lower")
  end.

(** The condition of line 163; [or] evaluates its operands from the left and
    stops at the first that holds. *)
Definition matches (filter_term : option string) (dataset : gmap string cell) : M bool :=
  let dataset_description := dataset_description dataset in
  match filter_term with
  | None => mret true
  | Some term =>
      id ← item dataset "id";
      in_id ← term_in term id;
      if in_id : bool then mret true
      else
        name ← item dataset "name";
        in_name ← term_in term name;
        if in_name : bool then mret true
        else term_in term dataset_description
  end.

(** The loop over the records (lines 159-168). *)
Fixpoint match_datasets (filter_term : option string) (datasets : list (gmap string cell))
    (matched_datasets : list (gmap string cell)) : M (list (gmap string cell)) :=
  match datasets with
  | [] => mret matched_datasets
  | dataset :: datasets' =>
      hit ← matches filter_term dataset;
      match_datasets filter_term datasets'
        (if hit : bool then matched_datasets ++ [dataset] else matched_datasets)
  end.

(** [list_datasets(filter_term, return_list=True)] *)
Definition list_datasets (self : GridStatusClient) (filter_term : option string)
    : M (list (gmap string cell)) :=
  '(df, _, _) ← get server version read_csv self (host self +:+ "/datasets/") ∅;
  match_datasets filter_term (to_dict_records df) [].

(** Does the record carry the term in its id, its name or its description?
    A value that is not a string carries nothing. *)
Definition carries (term : string) (x : option cell) : bool :=
  match x with
  | Some (Raw (SStr s)) => contains (lower term) (lower s)
  | _ => false
  end.

Definition hit (term : string) (dataset : gmap string cell) : bool :=
  carries term (dataset !! "id") ||
  carries term (dataset !! "name") ||
  carries term (Some (dataset_description dataset)).

End Catalog.

(** ** Measures on traces *)


(** The requests sent, in order. *)
Fixpoint requests (tr : trace) : list Request :=
  match tr with
  | [] => []
  | Sent r :: tr' => r :: requests tr'
  | Slept _ :: tr' => requests tr'
  end.

(** [2^0 + 2^1 + ... + 2^(n-1)] *)
Fixpoint sum_pow2 (n : nat) : Z :=
  match n with
  | O => 0
  | S n' => sum_pow2 n' + 2 ^ Z.of_nat n'
  end.

(** The events of [n] rate-limited attempts that start with [retries = r]:
    each is the request followed by the back-off sleep. *)
Fixpoint backoff (req : Request) (r : Z) (n : nat) : trace :=
  match n with
  | O => []
  | S n' => Sent req :: Slept (initial_delay * 2 ^ r) :: backoff req (r + 1) n'
  end.

(** ** Concrete clients, servers and tables used in the examples *)

Module Examples.

Definition client (request_format : string) (max_retries : Z) : GridStatusClient :=
  {| api_key := "secret"; host := "https://api.gridstatus.io/v1";
     request_format := request_format; max_retries := max_retries |}.

Definition args : DatasetArgs :=
  {| dataset := "ercot_load"; start := None; end_ := None; columns_ := None;
     filter_column := None; filter_value := PyNone; filter_operator := "=";
     publish_time := None; resample := None; resample_by := None;
     resample_function := "mean"; limit := None; page_size := None;
     tz := None; timezone := None; use_cursor_pagination := true;
     sleep_time := 0 |}.

Definition with_limit (limit page_size : Z) (a : DatasetArgs) : DatasetArgs :=
  {| dataset := dataset a; start := start a; end_ := end_ a; columns_ := columns_ a;
     filter_column := filter_column a; filter_value := filter_value a;
     filter_operator := filter_operator a; publish_time := publish_time a;
     resample := resample a; resample_by := resample_by a;
     resample_function := resample_function a; limit := Some limit;
     page_size := Some page_size; tz := tz a; timezone := timezone a;
     use_cursor_pagination := use_cursor_pagination a; sleep_time := sleep_time a |}.

Definition with_zones (tz timezone : option string) (a : DatasetArgs) : DatasetArgs :=
  {| dataset := dataset a; start := start a; end_ := end_ a; columns_ := columns_ a;
     filter_column := filter_column a; filter_value := filter_value a;
     filter_operator := filter_operator a; publish_time := publish_time a;
     resample := resample a; resample_by := resample_by a;
     resample_function := resample_function a; limit := limit a;
     page_size := page_size a; tz := tz; timezone := timezone;
     use_cursor_pagination := use_cursor_pagination a; sleep_time := sleep_time a |}.

(** A toy parser: a string of the form ["t<digit>"] is the instant
    [<digit>], the null value is missing, nothing else parses. *)
Definition parse_utc (v : scalar) : option (option Z) :=
  match v with
  | SNull => Some None
  | SStr "t0" => Some (Some 0)
  | SStr "t1" => Some (Some 1)
  | SStr "t2" => Some (Some 2)
  | SStr "t3" => Some (Some 3)
  | _ => None
  end.

Definition known_zone (zone : string) : bool :=
  bool_decide (zone ∈ ["UTC"; "America/New_York"; "US/Central"]).

Definition handle_date (d : string) (tz : option string) : option string := Some d.

Definition read_csv (body : string) : option DataFrame :=
  Some {| columns := ["interval_start_utc"; "load"];
          rows := [[Raw (SStr "t0"); Raw (SNum 1 0)]] |}.

Definition environ : gmap string string := ∅.

Definition version : string := "0.6.0".

Definition time_column : list ColumnMeta :=
  [{| name := "interval_start_utc"; is_datetime := true |}].

(** A page of [n] rows over the columns [interval_start_utc] and [load]. *)
Definition page_of (n : nat) (more : bool) (cursor : option string) : Response :=
  {| status_code := 200; text := "";
     json := Some {| data_header := ["interval_start_utc"; "load"];
                     data_rows := replicate n [SStr "t1"; SNum 42 0];
                     meta := {| hasNextPage := Some more; next_cursor := cursor |};
                     dataset_metadata := {| all_columns := Some time_column |} |} |}.

(** The same page as the client reads it. *)
Definition page (n : nat) (more : bool) (cursor : option string)
    : DataFrame * Meta * DatasetMetadata :=
  ({| columns := ["interval_start_utc"; "load"];
      rows := replicate n [Raw (SStr "t1"); Raw (SNum 42 0)] |},
   {| hasNextPage := Some more; next_cursor := cursor |},
   {| all_columns := Some time_column |}).

Definition too_many_requests : Response :=
  {| status_code := 429; text := "Too Many Requests"; json := None |}.

Definition internal_error : Response :=
  {| status_code := 500; text := "Internal Server Error"; json := None |}.

(** Answers the first [n] requests with 429 and every later one with [final]. *)
Definition rate_limiting (n : nat) (final : Response) : nat → Request → Response :=
  λ i _, if (i <? n)%nat then too_many_requests else final.

(** Answers request number [i] with the [i]-th response of [script], and
    with [last] once the script is used up. *)
Definition scripted (script : list Response) (last : Response)
    : nat → Request → Response :=
  λ i _, default last (script !! i).

(** The scenario of the specification: a limit of 150 rows, pages of 100,
    100 and 50 rows. *)
Definition three_pages : nat → Request → Response :=
  scripted [page_of 100 true (Some "c1"); page_of 100 true (Some "c2")]
           (page_of 50 false None).

(** A fetch of two pages (2 rows, then 1 row), with its table and events. *)
Definition two_pages : nat → Request → Response :=
  scripted [page_of 2 true (Some "c1")] (page_of 1 false None).



(** The same fetch with [timezone="America/New_York"]. *)
Definition args_new_york : DatasetArgs := with_zones None (Some "America/New_York") args.

Definition new_york_table : DataFrame :=
  Eval vm_compute in
    default {| columns := []; rows := [] |}
      (value_of (get_dataset two_pages version handle_date read_csv parse_utc known_zone
                   (client "json" 3) args_new_york 5 [])).

Definition new_york_events : trace :=
  Eval vm_compute in
    default []
      (trace_of (get_dataset two_pages version handle_date read_csv parse_utc known_zone
                   (client "json" 3) args_new_york 5 [])).

(** Frames and metadata for the normalisation alone. *)
Definition publish_columns : list ColumnMeta :=
  [{| name := "publish_time"; is_datetime := true |};
   {| name := "publish_time_local"; is_datetime := true |}].

Definition publish_frame : DataFrame :=
  {| columns := ["publish_time"; "load"];
     rows := [[Raw (SStr "t1"); Raw (SNum 42 0)]] |}.

Definition publish_frame_once : DataFrame :=
  {| columns := ["publish_time_local"; "load"];
     rows := [[Timestamp 1 "America/New_York"; Raw (SNum 42 0)]] |}.

Definition publish_frame_twice : DataFrame :=
  {| columns := ["publish_time_local_local"; "load"];
     rows := [[Timestamp 1 "America/New_York"; Raw (SNum 42 0)]] |}.

Definition interval_frame : DataFrame :=
  {| columns := ["interval_start_utc"; "load"];
     rows := [[Raw (SStr "t1"); Raw (SNum 42 0)]] |}.

Definition interval_frame_central : DataFrame :=
  {| columns := ["interval_start_local"; "load"];
     rows := [[Timestamp 1 "US/Central"; Raw (SNum 42 0)]] |}.

End Examples.

(** More concrete inputs, for the further properties. *)
Module Cases.

Definition with_sleep_time (seconds : Z) (a : DatasetArgs) : DatasetArgs :=
  {| dataset := dataset a; start := start a; end_ := end_ a; columns_ := columns_ a;
     filter_column := filter_column a; filter_value := filter_value a;
     filter_operator := filter_operator a; publish_time := publish_time a;
     resample := resample a; resample_by := resample_by a;
     resample_function := resample_function a; limit := limit a;
     page_size := page_size a; tz := tz a; timezone := timezone a;
     use_cursor_pagination := use_cursor_pagination a; sleep_time := seconds |}.

Definition with_filter (column : string) (values : list string) (a : DatasetArgs)
    : DatasetArgs :=
  {| dataset := dataset a; start := start a; end_ := end_ a; columns_ := columns_ a;
     filter_column := Some column; filter_value := PyList values;
     filter_operator := "in"; publish_time := publish_time a;
     resample := resample a; resample_by := resample_by a;
     resample_function := resample_function a; limit := limit a;
     page_size := page_size a; tz := tz a; timezone := timezone a;
     use_cursor_pagination := use_cursor_pagination a; sleep_time := sleep_time a |}.

Definition args_filter : DatasetArgs :=
  with_filter "location" ["HOUSTON"; "NORTH"] Examples.args.

(** The state in which the loop ends on the two pages of [Examples.two_pages]. *)
Definition two_pages_state : PageState :=
  Eval vm_compute in
    default (initial_state Examples.args)
      (value_of (fetch_pages Examples.two_pages Examples.version Examples.read_csv
                   (Examples.client "json" 3) Examples.args None None 5
                   (initial_state Examples.args) [])).

(** Lower case on the letters A-Z. *)
Definition lower_ascii (c : Ascii.ascii) : Ascii.ascii :=
  let n := Ascii.nat_of_ascii c in
  if ((65 <=? n) && (n <=? 90))%nat then Ascii.ascii_of_nat (n + 32) else c.

Fixpoint lower (s : string) : string :=
  match s with
  | EmptyString => EmptyString
  | String c s' => String (lower_ascii c) (lower s')
  end.

(** A catalogue of two datasets, the first without description. *)
Definition catalog_response : Response :=
  {| status_code := 200; text := "";
     json := Some {| data_header := ["id"; "name"; "description"];
                     data_rows := [[SStr "ercot_load"; SStr "ERCOT Load"; SNull];
                                   [SStr "pjm_lmp"; SStr "PJM LMP"; SStr "Prices"]];
                     meta := {| hasNextPage := None; next_cursor := None |};
                     dataset_metadata := {| all_columns := None |} |} |}.

Definition catalog_frame : DataFrame :=
  {| columns := ["id"; "name"; "description"];
     rows := [[Raw (SStr "ercot_load"); Raw (SStr "ERCOT Load"); Raw SNull];
              [Raw (SStr "pjm_lmp"); Raw (SStr "PJM LMP"); Raw (SStr "Prices")]] |}.

Definition catalog : nat → Request → Response := Examples.scripted [] catalog_response.

Definition catalog_request : Request :=
  get_request Examples.version (Examples.client "json" 3)
    "https://api.gridstatus.io/v1/datasets/" ∅.

Definition catalog_matched : list (gmap string cell) :=
  Eval vm_compute in
    default []
      (value_of (list_datasets catalog Examples.version Examples.read_csv lower
                   (Examples.client "json" 3) (Some "LOAD") [])).

(** A catalogue whose records have no [id]. *)
Definition nameless_response : Response :=
  {| status_code := 200; text := "";
     json := Some {| data_header := ["name"];
                     data_rows := [[SStr "ERCOT Load"]];
                     meta := {| hasNextPage := None; next_cursor := None |};
                     dataset_metadata := {| all_columns := None |} |} |}.

Definition nameless_frame : DataFrame :=
  {| columns := ["name"]; rows := [[Raw (SStr "ERCOT Load")]] |}.

Definition nameless_record : gmap string cell :=
  Eval vm_compute in default ∅ (head (to_dict_records nameless_frame)).

(** Frames for the normalisation. *)
Definition interval_frame_utc : DataFrame :=
  {| columns := ["interval_start_utc"; "load"];
     rows := [[Timestamp 1 "UTC"; Raw (SNum 42 0)]] |}.

Definition twice_labelled_frame : DataFrame :=
  {| columns := ["interval_start_utc"; "interval_start_utc"];
     rows := [[Raw (SStr "t1"); Raw (SStr "t2")]] |}.

Definition unparsable_frame : DataFrame :=
  {| columns := ["interval_start_utc"; "load"];
     rows := [[Raw (SStr "t1"); Raw (SNum 42 0)];
              [Raw (SStr "yesterday"); Raw (SNum 43 0)]] |}.

End Cases.

Lemma requests_sent_app (tr1 tr2 : trace) :
  requests_sent (tr1 ++ tr2) = (requests_sent tr1 + requests_sent tr2)%nat.
Proof. unfold requests_sent. by rewrite filter_app, length_app. Qed.

Lemma requests_sent_sent (tr : trace) r :
  requests_sent (tr ++ [Sent r]) = S (requests_sent tr).
Proof. rewrite requests_sent_app. change (requests_sent [Sent r]) with 1%nat. lia. Qed.

Lemma requests_sent_slept (tr : trace) d :
  requests_sent (tr ++ [Slept d]) = requests_sent tr.
Proof. rewrite requests_sent_app. change (requests_sent [Slept d]) with 0%nat. lia. Qed.

Lemma requests_sent_requests (tr : trace) : requests_sent tr = length (requests tr).
Proof.
  unfold requests_sent. induction tr as [|[r|d] tr IH]; [done|..].
  - rewrite filter_cons_True by done. simpl. by rewrite IH.
  - rewrite filter_cons_False by (simpl; auto). done.
Qed.

Lemma requests_app (tr1 tr2 : trace) : requests (tr1 ++ tr2) = requests tr1 ++ requests tr2.
Proof. induction tr1 as [|[r|d] tr1 IH]; simpl; by rewrite ?IH. Qed.


Lemma total_slept_app (tr1 tr2 : trace) :
  total_slept (tr1 ++ tr2) = total_slept tr1 + total_slept tr2.
Proof. induction tr1 as [|[r|d] tr1 IH]; simpl; rewrite ?IH; lia. Qed.

Lemma requests_sent_backoff req r n : requests_sent (backoff req r n) = n.
Proof.
  rewrite requests_sent_requests.
  revert r; induction n as [|n IH]; intros r; simpl; auto.
Qed.

Lemma requests_backoff req r n : requests (backoff req r n) = replicate n req.
Proof. revert r; induction n as [|n IH]; intros r; simpl; by rewrite ?IH. Qed.


Lemma sum_pow2_succ n : sum_pow2 (S n) = 1 + 2 * sum_pow2 n.
Proof.
  induction n as [|n IH]; [done|].
  change (sum_pow2 (S (S n))) with (sum_pow2 (S n) + 2 ^ Z.of_nat (S n)).
  rewrite IH at 1. cbn [sum_pow2].
  rewrite Nat2Z.inj_succ, Z.pow_succ_r by lia. lia.
Qed.

Lemma total_slept_backoff req r n :
  0 ≤ r → total_slept (backoff req r n) = initial_delay * 2 ^ r * sum_pow2 n.
Proof.
  unfold initial_delay. revert r; induction n as [|n IH]; intros r Hr.
  { cbn [backoff total_slept sum_pow2]. lia. }
  rewrite sum_pow2_succ. cbn [backoff total_slept].
  rewrite IH by lia. rewrite Z.pow_add_r by lia.
  unfold initial_delay. change (2 ^ 1) with 2. ring.
Qed.

Lemma sum_pow2_closed n : sum_pow2 n = 2 ^ Z.of_nat n - 1.
Proof.
  induction n as [|n IH]; [done|].
  simpl sum_pow2. rewrite IH, Nat2Z.inj_succ, Z.pow_succ_r by lia. lia.
Qed.

(** ** Properties of the retry loop *)

Section RetryLoop.

Variable server : nat → Request → Response.
Variable self : GridStatusClient.
Variable req : Request.

(** One turn of the loop, when its condition holds. *)
Lemma retry_loop_turn fuel retries response tr :
  retries ≤ max_retries self →
  retry_loop server self req (S fuel) retries response tr =
    let r := server (requests_sent tr) req in
    let tr1 := tr ++ [Sent req] in
    if decide (status_code r = 200) then Returns (Some r) tr1
    else if decide (status_code r = 429) then
      if decide (retries = max_retries self) then Raises RateLimited tr1
      else retry_loop server self req fuel (retries + 1) (Some r)
             (tr1 ++ [Slept (initial_delay * 2 ^ retries)])
    else Raises (HttpError (status_code r) (text r)) tr1.
Proof.
  intros Hle. simpl. rewrite bool_decide_eq_true_2 by done.
  unfold mbind, M_bind, requests_get. simpl.
  destruct (decide (status_code _ = 200)) as [H200|H200].
  { by rewrite bool_decide_eq_true_2. }
  rewrite (bool_decide_eq_false_2 _ H200).
  destruct (decide (status_code _ = 429)) as [H429|H429].
  - rewrite (bool_decide_eq_true_2 _ H429). simpl.
    destruct (decide (retries = _)) as [Hmax|Hmax].
    + by rewrite bool_decide_eq_true_2.
    + rewrite (bool_decide_eq_false_2 _ Hmax). unfold sleep.
      assert (0 ≤ initial_delay * 2 ^ retries) as Hd
        by (unfold initial_delay; pose proof (Z.pow_nonneg 2 retries); lia).
      destruct (Z.ltb_spec (initial_delay * 2 ^ retries) 0); [lia|done].
  - rewrite (bool_decide_eq_false_2 _ H429). done.
Qed.

(** After [n] rate-limited attempts the loop is back at its head with
    [retries] advanced by [n]. *)
Lemma retry_loop_backoff n : ∀ fuel retries response tr,
  retries + Z.of_nat n ≤ max_retries self →
  (∀ i, (i < n)%nat → status_code (server (requests_sent tr + i) req) = 429) →
  ∃ response',
    retry_loop server self req (n + fuel) retries response tr =
    retry_loop server self req fuel (retries + Z.of_nat n) response'
      (tr ++ backoff req retries n).
Proof.
  induction n as [|n IH]; intros fuel retries response tr Hle H429.
  { exists response. simpl backoff. by rewrite Z.add_0_r, app_nil_r. }
  change (S n + fuel)%nat with (S (n + fuel)).
  rewrite retry_loop_turn by lia. cbv zeta.
  pose proof (H429 0%nat ltac:(lia)) as H0. rewrite Nat.add_0_r in H0.
  destruct (decide (status_code _ = 200)); [congruence|].
  destruct (decide (status_code _ = 429)); [|congruence].
  destruct (decide (retries = _)); [lia|].
  edestruct (IH fuel (retries + 1) (Some (server (requests_sent tr) req))
               ((tr ++ [Sent req]) ++ [Slept (initial_delay * 2 ^ retries)]))
    as [response' Heq].
  { lia. }
  { intros i Hi. rewrite requests_sent_slept, requests_sent_sent.
    replace (S (requests_sent tr) + i)%nat with (requests_sent tr + S i)%nat by lia.
    apply H429. lia. }
  exists response'. rewrite Heq. f_equal; [lia|].
  simpl. by rewrite <- !app_assoc.
Qed.

End RetryLoop.

(** ** The request executor: [get] *)

Section Executor.

Variable server : nat → Request → Response.
Variable version : string.
Variable read_csv : string → option DataFrame.
Variable self : GridStatusClient.

(** What [get] does once [n] attempts have been rate limited (and
    [n <= max_retries]): it sends the request once more and acts on the
    answer [r]. *)
Lemma get_after_backoff url params (n : nat) (tr : trace) :
  let req := get_request version self url params in
  Z.of_nat n ≤ max_retries self →
  (∀ i, (i < n)%nat → status_code (server (requests_sent tr + i) req) = 429) →
  let r := server (requests_sent tr + n) req in
  let tr1 := tr ++ backoff req 0 n ++ [Sent req] in
  get server version read_csv self url params tr =
    if decide (status_code r = 200) then decode read_csv self (Some r) tr1
    else if decide (status_code r = 429) then
      if decide (Z.of_nat n = max_retries self) then Raises RateLimited tr1
      else
        mbind (M := M) (decode read_csv self)
          (retry_loop server self req
             (Z.to_nat (max_retries self + 1) - S n) (Z.of_nat n + 1) (Some r))
          (tr1 ++ [Slept (initial_delay * 2 ^ Z.of_nat n)])
    else Raises (HttpError (status_code r) (text r)) tr1.
Proof.
  intros req Hle H429 r tr1. unfold get. fold req.
  unfold mbind at 1. unfold M_bind at 1.
  replace (Z.to_nat (max_retries self + 1))
    with (n + S (Z.to_nat (max_retries self + 1) - S n))%nat at 1 by lia.
  destruct (retry_loop_backoff server self req n
              (S (Z.to_nat (max_retries self + 1) - S n)) 0 None tr) as [resp' ->];
    [lia|done|].
  rewrite retry_loop_turn by lia. cbv zeta.
  rewrite requests_sent_app, requests_sent_backoff. fold r.
  replace ((tr ++ backoff req 0 n) ++ [Sent req]) with tr1
    by (unfold tr1; by rewrite app_assoc).
  rewrite Z.add_0_l.
  destruct (decide (status_code r = 200)); [done|].
  destruct (decide (status_code r = 429)); [|done].
  destruct (decide (Z.of_nat n = _)); done.
Qed.


(** C6. With [max_retries = k] and [k + 1] consecutive 429 responses, [get]
    raises the rate-limit exception; the trace ends with the [(k+1)]-th
    request, so exactly [k + 1] requests were sent and none follows. *)
Theorem get_retries_exhausted url params (k : nat) (tr : trace) :
  let req := get_request version self url params in
  max_retries self = Z.of_nat k →
  (∀ i, (i < S k)%nat → status_code (server (requests_sent tr + i) req) = 429) →
  let tr' := backoff req 0 k ++ [Sent req] in
  get server version read_csv self url params tr = Raises RateLimited (tr ++ tr')
  ∧ requests tr' = replicate (S k) req.
Proof.
  intros req Hmax H429 tr'. split.
  - rewrite (get_after_backoff url params k tr); [|lia|auto with lia].
    cbv zeta. fold req.
    pose proof (H429 k ltac:(lia)) as Hk.
    destruct (decide (status_code _ = 200)); [congruence|].
    destruct (decide (status_code _ = 429)); [|congruence].
    destruct (decide (Z.of_nat k = _)); [done|lia].
  - unfold tr'. rewrite requests_app, requests_backoff. simpl.
    by rewrite <- replicate_cons_app.
Qed.

(** C7. A response whose status is neither 200 nor 429 -- to the first
    request or to a retry after [n] rate-limited attempts -- makes [get]
    raise the error that carries the status and the body; the trace ends
    with that request: no sleep and no request follows. *)
Theorem get_other_status_fails_at_once url params (n : nat) (tr : trace) :
  let req := get_request version self url params in
  Z.of_nat n ≤ max_retries self →
  (∀ i, (i < n)%nat → status_code (server (requests_sent tr + i) req) = 429) →
  let r := server (requests_sent tr + n) req in
  status_code r ≠ 200 → status_code r ≠ 429 →
  get server version read_csv self url params tr =
    Raises (HttpError (status_code r) (text r)) (tr ++ backoff req 0 n ++ [Sent req]).
Proof.
  intros req Hle H429 r Hn200 Hn429.
  rewrite (get_after_backoff url params n tr Hle H429). cbv zeta. fold req r.
  destruct (decide (status_code r = 200)); [done|].
  by destruct (decide (status_code r = 429)).
Qed.

End Executor.


Lemma get_retries_exhausted_witness :
  let self := Examples.client "json" 2 in
  let req := get_request Examples.version self "u" ∅ in
  let tr' := backoff req 0 2 ++ [Sent req] in
  get (Examples.rate_limiting 3 (Examples.page_of 1 false None))
      Examples.version Examples.read_csv self "u" ∅ [] = Raises RateLimited ([] ++ tr')
  ∧ requests tr' = replicate 3 req.
Proof.
  apply (get_retries_exhausted
           (Examples.rate_limiting 3 (Examples.page_of 1 false None))
           Examples.version Examples.read_csv (Examples.client "json" 2) "u" ∅ 2 []).
  - reflexivity.
  - intros [|[|[|i]]] Hi; [reflexivity|reflexivity|reflexivity|lia].
Defined.

Lemma get_other_status_fails_at_once_witness :
  let self := Examples.client "json" 3 in
  let req := get_request Examples.version self "u" ∅ in
  get (Examples.scripted [Examples.too_many_requests] Examples.internal_error)
      Examples.version Examples.read_csv self "u" ∅ [] =
    Raises (HttpError 500 "Internal Server Error") ([] ++ backoff req 0 1 ++ [Sent req]).
Proof.
  apply (get_other_status_fails_at_once
           (Examples.scripted [Examples.too_many_requests] Examples.internal_error)
           Examples.version Examples.read_csv (Examples.client "json" 3) "u" ∅ 1 []).
  - simpl. lia.
  - intros [|i] Hi; [reflexivity|lia].
  - simpl. lia.
  - simpl. lia.
Defined.

(** ** General facts about [get] and the page loop *)

Section Fetch.

Variable server : nat → Request → Response.
Variable version : string.
Variable handle_date : string → option string → option string.
Variable read_csv : string → option DataFrame.
Variable parse_utc : scalar → option (option Z).
Variable known_zone : string → bool.
Variable self : GridStatusClient.

Local Abbreviation get := (get server version read_csv).
Local Abbreviation decode := (decode read_csv).
Local Abbreviation fetch_page := (fetch_page server version read_csv).
Local Abbreviation fetch_pages := (fetch_pages server version read_csv).
Local Abbreviation get_dataset :=
  (get_dataset server version handle_date read_csv parse_utc known_zone).

Lemma bind_returns {A B} (m : M A) (k : A → M B) tr a tr1 :
  m tr = Returns a tr1 → (m ≫= k) tr = k a tr1.
Proof. intros H. unfold mbind, M_bind. by rewrite H. Qed.

Lemma bind_raises {A B} (m : M A) (k : A → M B) tr e tr1 :
  m tr = Raises e tr1 → (m ≫= k) tr = Raises e tr1.
Proof. intros H. unfold mbind, M_bind. by rewrite H. Qed.

Lemma bind_inv_returns {A B} (m : M A) (k : A → M B) tr b tr2 :
  (m ≫= k) tr = Returns b tr2 →
  ∃ a tr1, m tr = Returns a tr1 ∧ k a tr1 = Returns b tr2.
Proof. unfold mbind, M_bind. destruct (m tr) as [a tr1| |]; [eauto|done|done]. Qed.

(** The retry loop always ends when it has [max_retries + 1 - retries]
    turns to run. *)
Lemma retry_loop_terminates req fuel : ∀ retries response tr,
  max_retries self + 1 - retries ≤ Z.of_nat fuel →
  retry_loop server self req fuel retries response tr ≠ OutOfFuel.
Proof.
  induction fuel as [|fuel IH]; intros retries response tr Hfuel.
  - simpl. by rewrite bool_decide_eq_false_2 by lia.
  - destruct (decide (retries ≤ max_retries self)) as [Hle|Hgt].
    + rewrite retry_loop_turn by done. cbv zeta.
      repeat case_decide; try done. apply IH. lia.
    + simpl. by rewrite bool_decide_eq_false_2.
Qed.

Lemma decode_terminates response tr : decode self response tr ≠ OutOfFuel.
Proof.
  unfold decode. destruct response as [r|]; [|done].
  repeat case_bool_decide; try done.
  - destruct (json r) as [data|]; [|done]. by destruct (DataFrame_of_rows _ _).
  - by destruct (read_csv _).
Qed.

Lemma get_terminates url params tr : get self url params tr ≠ OutOfFuel.
Proof.
  unfold get, mbind, M_bind.
  pose proof (retry_loop_terminates (get_request version self url params)
                (Z.to_nat (max_retries self + 1)) 0 None tr ltac:(lia)) as Hne.
  destruct (retry_loop _ _ _ _ _ _ tr) as [r tr1| |]; [|done|done].
  apply decode_terminates.
Qed.

(** In CSV mode a decoded response carries neither [meta] nor
    [dataset_metadata]. *)
Lemma decode_csv response tr df m dm tr' :
  request_format self = "csv" →
  decode self response tr = Returns (df, m, dm) tr' → m = None ∧ dm = None.
Proof.
  intros Hcsv. unfold decode. destruct response as [r|]; [|done].
  rewrite Hcsv. simpl.
  destruct (read_csv _); [|done]. by intros [= _ <- <- _].
Qed.

Lemma get_csv url params tr df m dm tr' :
  request_format self = "csv" →
  get self url params tr = Returns (df, m, dm) tr' → m = None ∧ dm = None.
Proof.
  intros Hcsv Hget. unfold get in Hget.
  apply bind_inv_returns in Hget as (r & tr1 & _ & Hdec).
  by eapply decode_csv.
Qed.

Lemma fetch_page_csv a start end_ st tr :
  request_format self = "csv" →
  ∃ e tr', fetch_page self a start end_ st tr = Raises e tr'.
Proof.
  intros Hcsv. unfold fetch_page. destruct (page_params _ _ _ _) as [params fv].
  unfold mbind at 1. unfold M_bind at 1.
  destruct (get _ _ _ tr) as [[[df m] dm] tr1|e tr1|] eqn:Hget.
  - apply get_csv in Hget as [-> ->]; [|done]. by eexists _, _.
  - by eexists _, _.
  - by apply get_terminates in Hget.
Qed.

Lemma handle_optional_date_cases d tz tr :
  (∃ d', handle_optional_date handle_date d tz tr = Returns d' tr) ∨
  handle_optional_date handle_date d tz tr = Raises HandleDateError tr.
Proof.
  unfold handle_optional_date. destruct d as [d|]; [|by left; eexists].
  destruct (handle_date d tz); [by left; eexists|by right].
Qed.

(** The first steps of [get_dataset], up to the page loop. *)
Lemma get_dataset_prologue a fuel tr :
  get_dataset self a fuel tr = Raises TzAndTimezone tr ∨
  get_dataset self a fuel tr = Raises HandleDateError tr ∨
  ∃ start' end',
    truthy (tz a) && truthy (timezone a) = false ∧
    handle_optional_date handle_date (start a) (tz a) tr = Returns start' tr ∧
    handle_optional_date handle_date (end_ a) (tz a) tr = Returns end' tr ∧
    get_dataset self a fuel tr =
      (st ← fetch_pages self a start' end' fuel (initial_state a);
       df ← pd_concat (dfs st);
       match st_dataset_metadata st with
       | None => raise (AttributeError "get")
       | Some dataset_metadata =>
           normalize parse_utc known_zone (tz a) (timezone a)
             (default [] (all_columns dataset_metadata)) df
       end) tr.
Proof.
  unfold get_dataset.
  destruct (truthy (tz a) && truthy (timezone a)) eqn:Hzones; [by left|].
  right. erewrite bind_returns by done.
  destruct (handle_optional_date_cases (start a) (tz a) tr) as [[s Hs]|Hs];
    [|left; by erewrite bind_raises].
  erewrite bind_returns by done.
  destruct (handle_optional_date_cases (end_ a) (tz a) tr) as [[e He]|He];
    [|left; by erewrite bind_raises].
  erewrite bind_returns by done.
  right. by exists s, e.
Qed.

(** C8. Each configuration fault raises before any request is sent: the
    trace of events is left as it was.  A missing API key (none passed, none
    in the environment) and a wire format other than "json" and "csv" make
    the constructor raise; a [tz] and a [timezone] that are both set make
    [get_dataset] raise. *)
Theorem configuration_faults_precede_requests
    (environ : gmap string string) (key : option string) (host format : string)
    (retries : Z) (a : DatasetArgs) (fuel : nat) (tr : trace) :
  (key = None → environ !! "GRIDSTATUS_API_KEY" = None →
     init environ key host format retries tr = Raises NoApiKey tr)
  ∧ (format ∉ ["json"; "csv"] →
     ∃ e, init environ key host format retries tr = Raises e tr)
  ∧ (truthy (tz a) = true → truthy (timezone a) = true →
     get_dataset self a fuel tr = Raises TzAndTimezone tr).
Proof.
  split_and!.
  - intros -> Henv. unfold init. by rewrite Henv.
  - intros Hformat. unfold init.
    destruct (match key with Some k => Some k | None => _ end); [|by eexists].
    rewrite bool_decide_eq_false_2 by done. by eexists.
  - intros Htz Htimezone. unfold get_dataset. by rewrite Htz, Htimezone.
Qed.

Lemma fetch_pages_csv a start end_ fuel st tr :
  request_format self = "csv" → has_next_page st = true →
  ∃ e tr', fetch_pages self a start end_ (S fuel) st tr = Raises e tr'.
Proof.
  intros Hcsv Hnext. simpl. rewrite Hnext.
  destruct (fetch_page_csv a start end_ st tr Hcsv) as (e & tr' & Hpage).
  exists e, tr'. by erewrite bind_raises.
Qed.

(** C10. With [request_format = "csv"] no call of [get_dataset] returns a
    table: it raises (once the loop is given a turn to run).  Even when the
    configuration is sound, the dates are handled, the first request is
    answered with 200 and the body is read as CSV, the call raises the
    [AttributeError] of [meta.get] on [None], after that single request. *)
Theorem csv_get_dataset_never_returns a fuel tr :
  request_format self = "csv" →
  is_returns (get_dataset self a fuel tr) = false
  ∧ (∃ e tr', get_dataset self a (S fuel) tr = Raises e tr')
  ∧ ∀ start' end' df,
      let url := host self +:+ "/datasets/" +:+ dataset a +:+ "/query" in
      let req := get_request version self url
                   (page_params a start' end' (initial_state a)).1 in
      let r := server (requests_sent tr) req in
      truthy (tz a) && truthy (timezone a) = false →
      handle_optional_date handle_date (start a) (tz a) tr = Returns start' tr →
      handle_optional_date handle_date (end_ a) (tz a) tr = Returns end' tr →
      0 ≤ max_retries self →
      status_code r = 200 →
      read_csv (text r) = Some df →
      get_dataset self a (S fuel) tr = Raises (AttributeError "get") (tr ++ [Sent req]).
Proof.
  intros Hcsv. split_and!.
  - destruct (get_dataset_prologue a fuel tr) as [->|[->|(s & e & _ & _ & _ & ->)]];
      [done|done|].
    destruct fuel as [|fuel]; [done|].
    destruct (fetch_pages_csv a s e fuel (initial_state a) tr Hcsv eq_refl)
      as (x & tr' & Hpages).
    by erewrite bind_raises.
  - destruct (get_dataset_prologue a (S fuel) tr) as [->|[->|(s & e & _ & _ & _ & ->)]];
      [by eexists _, _|by eexists _, _|].
    destruct (fetch_pages_csv a s e fuel (initial_state a) tr Hcsv eq_refl)
      as (x & tr' & Hpages).
    exists x, tr'. by erewrite bind_raises.
  - intros s e df url req r Hzones Hs He Hretries H200 Hread.
    unfold get_dataset. rewrite Hzones.
    erewrite bind_returns by done. erewrite bind_returns by done.
    erewrite bind_returns by done.
    apply bind_raises.
    simpl fetch_pages.
    apply bind_raises.
    unfold fetch_page. fold url.
    subst req. destruct (page_params a s e (initial_state a)) as [params fv].
    simpl fst in *.
    unfold mbind at 1. unfold M_bind at 1.
    rewrite (get_after_backoff server version read_csv self url params 0 tr);
      [|done|intros i Hi; lia].
    cbv zeta. rewrite Nat.add_0_r. fold r.
    rewrite decide_True by done.
    unfold decode. rewrite Hcsv. simpl. by rewrite Hread.
Qed.

End Fetch.

(** ** The page loop *)

Section Pagination.

Variable server : nat → Request → Response.
Variable version : string.
Variable read_csv : string → option DataFrame.
Variable self : GridStatusClient.
Variable a : DatasetArgs.
Variables start' end' : option string.

Hypothesis json_format : request_format self = "json".
Hypothesis retries_allowed : 0 ≤ max_retries self.
Hypothesis sleep_time_ok : 0 ≤ sleep_time a.

Local Abbreviation fetch_page := (fetch_page server version read_csv self a start' end').
Local Abbreviation fetch_pages := (fetch_pages server version read_csv self a start' end').
Local Abbreviation page_request := (page_request version self a start' end').
Local Abbreviation state_after := (state_after a start' end').
Local Abbreviation serves := (serves server version self a start' end').
Local Abbreviation page_events := (page_events version self a start' end').

Lemma fetch_pages_done fuel st tr :
  has_next_page st = false → fetch_pages fuel st tr = Returns st tr.
Proof. intros Hdone. destruct fuel; simpl; by rewrite Hdone. Qed.

Lemma fetch_pages_turn fuel st tr :
  has_next_page st = true →
  fetch_pages (S fuel) st tr = (fetch_page st ≫= fetch_pages fuel) tr.
Proof. intros Hnext. simpl. by rewrite Hnext. Qed.

Lemma fetch_pages_out_of_fuel st tr :
  has_next_page st = true → fetch_pages 0 st tr = OutOfFuel.
Proof. intros Hnext. simpl. by rewrite Hnext. Qed.

(** One turn of the loop when the server answers the request with a page. *)
Lemma fetch_page_ok st tr p :
  read_page (server (requests_sent tr) (page_request st)) = Some p →
  fetch_page st tr =
    Returns (state_after st p) (tr ++ [Sent (page_request st); Slept (sleep_time a)]).
Proof.
  unfold read_page, page_request, state_after, fetch_page.
  destruct (page_params a start' end' st) as [params fv]. simpl fst; simpl snd.
  set (url := host self +:+ _). set (req := get_request _ _ _ _).
  intros Hpage. case_bool_decide as H200; [|done].
  destruct (json _) as [data|] eqn:Hjson; [|done]. simpl in Hpage.
  destruct (DataFrame_of_rows _ _) as [df|] eqn:Hdf; [|done].
  simpl in Hpage. injection Hpage as <-.
  unfold mbind at 1. unfold M_bind at 1.
  rewrite (get_after_backoff server version read_csv self url params 0 tr);
    [|done|intros i Hi; lia].
  cbv zeta. rewrite Nat.add_0_r. fold req.
  rewrite decide_True by done.
  unfold decode. rewrite json_format. simpl. rewrite Hjson, Hdf. simpl.
  unfold mbind, M_bind, sleep.
  destruct (Z.ltb_spec (sleep_time a) 0); [lia|].
  unfold mret, M_ret. by rewrite <- app_assoc.
Qed.

Lemma requests_sent_page_events pages : ∀ st,
  requests_sent (page_events st pages) = length pages.
Proof.
  induction pages as [|p pages IH]; intros st; [done|].
  simpl page_events.
  change (Sent ?r :: Slept ?d :: ?l) with ([Sent r; Slept d] ++ l).
  rewrite requests_sent_app, IH. done.
Qed.

(** Turns that receive pages announcing a next page lead back to the head
    of the loop. *)
Lemma fetch_pages_run pages : ∀ st tr fuel,
  has_next_page st = true →
  serves st (requests_sent tr) pages →
  Forall (λ p, more_pages p = true) pages →
  fetch_pages (length pages + fuel) st tr =
    fetch_pages fuel (foldl state_after st pages) (tr ++ page_events st pages)
  ∧ has_next_page (foldl state_after st pages) = true.
Proof.
  induction pages as [|p pages IH]; intros st tr fuel Hnext Hserves Hmore.
  { simpl. by rewrite app_nil_r. }
  destruct Hserves as [Hp Hserves]. apply Forall_cons in Hmore as [Hmorep Hmore].
  change (length (p :: pages) + fuel)%nat with (S (length pages + fuel)).
  rewrite fetch_pages_turn by done.
  erewrite bind_returns by (by apply fetch_page_ok).
  destruct (IH (state_after st p)
              (tr ++ [Sent (page_request st); Slept (sleep_time a)]) fuel)
    as [Hrun Hlast]; [done| |done|].
  { change [Sent ?r; Slept ?d] with ([Sent r] ++ [Slept d]).
    rewrite app_assoc, requests_sent_slept, requests_sent_sent.
    done. }
  split; [|done]. rewrite Hrun. simpl. by rewrite <- app_assoc.
Qed.

(** The loop on a server that answers with [pages], which all announce a
    next page, and then with [last], which does not. *)
Lemma fetch_pages_served pages last st tr fuel :
  has_next_page st = true →
  serves st (requests_sent tr) (pages ++ [last]) →
  Forall (λ p, more_pages p = true) pages →
  more_pages last = false →
  fetch_pages (S (length pages) + fuel) st tr =
    Returns (foldl state_after st (pages ++ [last]))
      (tr ++ page_events st (pages ++ [last]))
  ∧ fetch_pages (length pages) st tr = OutOfFuel.
Proof.
  intros Hnext Hserves Hmore Hlast.
  assert (Hsplit : serves st (requests_sent tr) pages ∧
            read_page (server (requests_sent tr + length pages)
                         (page_request (foldl state_after st pages))) = Some last).
  { clear -Hserves. revert st Hserves. generalize (requests_sent tr) as n.
    induction pages as [|p pages IH]; intros n st Hserves.
    - simpl in *. rewrite Nat.add_0_r. by destruct Hserves.
    - destruct Hserves as [Hp Hserves]. apply IH in Hserves as [Hs Hl].
      split; [by split|]. simpl. by rewrite Nat.add_succ_r. }
  destruct Hsplit as [Hpages Hlastpage].
  assert (Htr' : tr ++ page_events st (pages ++ [last]) =
            (tr ++ page_events st pages) ++
            [Sent (page_request (foldl state_after st pages)); Slept (sleep_time a)]).
  { rewrite <- app_assoc. f_equal. clear. revert st.
    induction pages as [|p pages IH]; intros st; [done|]. simpl. by rewrite IH. }
  split.
  - replace (S (length pages) + fuel)%nat with (length pages + S fuel)%nat by lia.
    destruct (fetch_pages_run pages st tr (S fuel)) as [-> Hn]; [done..|].
    rewrite fetch_pages_turn by done.
    erewrite bind_returns.
    2:{ apply fetch_page_ok.
        by rewrite requests_sent_app, requests_sent_page_events. }
    rewrite fetch_pages_done; [by rewrite foldl_app, Htr'|done].
  - destruct (fetch_pages_run pages st tr 0) as [Hrun Hn]; [done..|].
    rewrite Nat.add_0_r in Hrun. rewrite Hrun. by apply fetch_pages_out_of_fuel.
Qed.

(** C2, as the code has it.  The loop ends exactly with the first page that
    does not announce a next page: if the server answers with [pages], which
    all announce one, and then with [last], which does not, the loop returns
    after [length pages + 1] requests, and after [length pages] turns it is
    still running.  The row limit [limit a], the page size and the rows
    received so far play no part. *)
Theorem pagination_ends_with_last_page pages last st tr fuel :
  has_next_page st = true →
  serves st (requests_sent tr) (pages ++ [last]) →
  Forall (λ p, more_pages p = true) pages →
  more_pages last = false →
  let st' := foldl state_after st (pages ++ [last]) in
  let tr' := tr ++ page_events st (pages ++ [last]) in
  fetch_pages (S (length pages) + fuel) st tr = Returns st' tr'
  ∧ requests_sent tr' = (requests_sent tr + S (length pages))%nat
  ∧ has_next_page st' = false
  ∧ fetch_pages (length pages) st tr = OutOfFuel.
Proof.
  intros Hnext Hserves Hmore Hlast st' tr'.
  destruct (fetch_pages_served pages last st tr fuel Hnext Hserves Hmore Hlast)
    as [Hreturns Hrunning].
  split_and!; [done| |by unfold st'; rewrite foldl_app|done].
  unfold tr'. rewrite requests_sent_app, requests_sent_page_events, length_app.
  simpl. lia.
Qed.

(** A server that announces a next page for ever keeps the loop running:
    whatever the fuel, it is used up. *)
Lemma endless_pages_never_end
    (page_of : nat → Request → DataFrame * Meta * DatasetMetadata) fuel : ∀ st tr,
  (∀ n req, read_page (server n req) = Some (page_of n req) ∧
            more_pages (page_of n req) = true) →
  has_next_page st = true →
  fetch_pages fuel st tr = OutOfFuel.
Proof.
  induction fuel as [|fuel IH]; intros st tr Hserver Hnext.
  { by apply fetch_pages_out_of_fuel. }
  rewrite fetch_pages_turn by done.
  destruct (Hserver (requests_sent tr) (page_request st)) as [Hpage Hmore].
  erewrite bind_returns by (by apply fetch_page_ok).
  by apply IH.
Qed.

Lemma get_request_param (url : string) (ps : gmap string pyval) (key : string) :
  key ≠ "return_format" → key ≠ "json_schema" →
  params (get_request version self url ps) !! key = ps !! key.
Proof.
  intros Hrf Hjs. unfold get_request. simpl.
  destruct (ps !! "return_format"); [done|].
  case_bool_decide; by rewrite ?lookup_insert_ne by done.
Qed.

(** Under cursor pagination the request of a turn carries the cursor of the
    loop state. *)
Lemma page_request_cursor st :
  use_cursor_pagination a = true →
  params (page_request st) !! "cursor" = Some (opt_str (cursor st)).
Proof.
  intros Hcursor. unfold page_request. rewrite get_request_param by done.
  unfold page_params. rewrite Hcursor.
  destruct (_ || _); simpl; destruct (columns_ a);
    rewrite ?lookup_insert_ne by done; by rewrite lookup_insert_eq.
Qed.

(** C3, as the code has it.  A page that announces a next page and repeats
    the cursor that was sent does not make the fetch fail: the turn ends
    normally, the loop goes on, and its next request carries that same
    cursor again. *)
Theorem repeated_cursor_is_sent_again st tr p fuel :
  use_cursor_pagination a = true →
  has_next_page st = true →
  read_page (server (requests_sent tr) (page_request st)) = Some p →
  more_pages p = true →
  next_cursor p.1.2 = cursor st →
  let st' := state_after st p in
  let tr' := tr ++ [Sent (page_request st); Slept (sleep_time a)] in
  fetch_page st tr = Returns st' tr'
  ∧ has_next_page st' = true
  ∧ cursor st' = cursor st
  ∧ params (page_request st') !! "cursor" =
      params (page_request st) !! "cursor"
  ∧ fetch_pages (S fuel) st tr = fetch_pages fuel st' tr'
  ∧ fetch_pages 1 st tr = OutOfFuel.
Proof.
  intros Hcursor Hnext Hpage Hmore Hsame st' tr'.
  assert (Hturn : fetch_page st tr = Returns st' tr') by by apply fetch_page_ok.
  split_and!; try done.
  - rewrite !page_request_cursor by done. subst st'. simpl. by rewrite Hsame.
  - rewrite fetch_pages_turn by done. by erewrite bind_returns.
  - rewrite fetch_pages_turn by done. erewrite bind_returns by done.
    by apply fetch_pages_out_of_fuel.
Qed.

End Pagination.

(** ** The page loop on concrete servers *)

(** C2 fails as stated: with [limit = 1] and [page_size = 1] the bound
    [ceil(limit / page_size) + 1] is 2 and the first page already reaches the
    limit, yet against a server that announces three pages the client sends
    three page requests and returns three rows. *)
Lemma limit_does_not_end_the_loop :
  let a := Examples.with_limit 1 1 Examples.args in
  let server :=
    Examples.scripted [Examples.page_of 1 true (Some "c1");
                       Examples.page_of 1 true (Some "c2")]
                      (Examples.page_of 1 false None) in
  let out :=
    get_dataset server Examples.version Examples.handle_date Examples.read_csv
      Examples.parse_utc Examples.known_zone (Examples.client "json" 3) a 10 [] in
  limit a = Some 1 ∧ page_size a = Some 1
  ∧ is_returns out = true
  ∧ requests_sent <$> trace_of out = Some 3%nat
  ∧ length ∘ rows <$> value_of out = Some 3%nat
  ∧ ¬ (3 ≤ claimed_page_bound 1 1).
Proof.
  cbv zeta. split_and!; [done|done|by vm_compute..|].
  vm_compute. intros H. by apply H.
Qed.

Lemma pagination_ends_with_last_page_witness :
  let self := Examples.client "json" 3 in
  let a := Examples.with_limit 1 1 Examples.args in
  let server :=
    Examples.scripted [Examples.page_of 1 true (Some "c1")]
                      (Examples.page_of 1 false None) in
  let pages := [Examples.page 1 true (Some "c1")] in
  let last := Examples.page 1 false None in
  let st := initial_state a in
  let st' := foldl (state_after a None None) st (pages ++ [last]) in
  let tr' := [] ++ page_events Examples.version self a None None st (pages ++ [last]) in
  fetch_pages server Examples.version Examples.read_csv self a None None
    (S (length pages) + 0) st [] = Returns st' tr'
  ∧ requests_sent tr' = (requests_sent [] + S (length pages))%nat
  ∧ has_next_page st' = false
  ∧ fetch_pages server Examples.version Examples.read_csv self a None None
      (length pages) st [] = OutOfFuel.
Proof.
  apply (pagination_ends_with_last_page
           (Examples.scripted [Examples.page_of 1 true (Some "c1")]
                              (Examples.page_of 1 false None))
           Examples.version Examples.read_csv (Examples.client "json" 3)
           (Examples.with_limit 1 1 Examples.args) None None).
  - reflexivity.
  - simpl. lia.
  - simpl. lia.
  - reflexivity.
  - split; [by vm_compute|]. split; [by vm_compute|exact I].
  - repeat constructor.
  - reflexivity.
Defined.

(** C3 fails as stated: a server whose second page repeats the cursor of the
    first (both announcing a next page) does not make the fetch fail; the
    client sends that cursor twice and returns the table. *)
Lemma repeated_cursor_does_not_fail :
  let server :=
    Examples.scripted [Examples.page_of 1 true (Some "c");
                       Examples.page_of 1 true (Some "c")]
                      (Examples.page_of 1 false (Some "c")) in
  let out :=
    get_dataset server Examples.version Examples.handle_date Examples.read_csv
      Examples.parse_utc Examples.known_zone (Examples.client "json" 3)
      Examples.args 10 [] in
  use_cursor_pagination Examples.args = true
  ∧ is_returns out = true
  ∧ error_of out = None
  ∧ (λ tr, (λ r, params r !! "cursor") <$> requests tr) <$> trace_of out =
      Some [Some (PyStr ""); Some (PyStr "c"); Some (PyStr "c")].
Proof. cbv zeta. split_and!; by vm_compute. Qed.

Lemma repeated_cursor_is_sent_again_witness :
  let self := Examples.client "json" 3 in
  let a := Examples.args in
  let server := Examples.scripted [] (Examples.page_of 1 true (Some "")) in
  let st := initial_state a in
  let st' := state_after a None None st (Examples.page 1 true (Some "")) in
  let tr' := [] ++ [Sent (page_request Examples.version self a None None st);
                    Slept (sleep_time a)] in
  fetch_page server Examples.version Examples.read_csv self a None None st [] =
    Returns st' tr'
  ∧ has_next_page st' = true
  ∧ cursor st' = cursor st
  ∧ params (page_request Examples.version self a None None st') !! "cursor" =
      params (page_request Examples.version self a None None st) !! "cursor"
  ∧ fetch_pages server Examples.version Examples.read_csv self a None None 1 st [] =
      fetch_pages server Examples.version Examples.read_csv self a None None 0 st' tr'
  ∧ fetch_pages server Examples.version Examples.read_csv self a None None 1 st [] =
      OutOfFuel.
Proof.
  apply (repeated_cursor_is_sent_again
           (Examples.scripted [] (Examples.page_of 1 true (Some "")))
           Examples.version Examples.read_csv (Examples.client "json" 3)
           Examples.args None None).
  - reflexivity.
  - simpl. lia.
  - simpl. lia.
  - reflexivity.
  - reflexivity.
  - by vm_compute.
  - reflexivity.
  - reflexivity.
Defined.

Lemma configuration_faults_precede_requests_witness :
  let get_dataset :=
    get_dataset (Examples.scripted [] (Examples.page_of 1 false None))
      Examples.version Examples.handle_date Examples.read_csv Examples.parse_utc
      Examples.known_zone (Examples.client "json" 3) in
  init Examples.environ None "https://api.gridstatus.io/v1" "json" 3 [] =
    Raises NoApiKey []
  ∧ (∃ e, init Examples.environ (Some "secret") "https://api.gridstatus.io/v1" "xml" 3 [] =
            Raises e [])
  ∧ get_dataset
      (Examples.with_zones (Some "US/Central") (Some "America/New_York") Examples.args)
      5%nat [] = Raises TzAndTimezone [].
Proof.
  pose proof (λ key format a,
    configuration_faults_precede_requests
      (Examples.scripted [] (Examples.page_of 1 false None))
      Examples.version Examples.handle_date Examples.read_csv Examples.parse_utc
      Examples.known_zone (Examples.client "json" 3)
      Examples.environ key "https://api.gridstatus.io/v1" format 3 a 5%nat []) as H.
  split_and!.
  - apply (H None "json" Examples.args); reflexivity.
  - apply (H (Some "secret") "xml" Examples.args).
    apply (bool_decide_unpack _). by vm_compute.
  - apply (H None "json"
             (Examples.with_zones (Some "US/Central") (Some "America/New_York")
                Examples.args)); reflexivity.
Defined.

Lemma csv_get_dataset_never_returns_witness :
  let self := Examples.client "csv" 3 in
  let server := Examples.scripted [] (Examples.page_of 1 false None) in
  let get_dataset :=
    get_dataset server Examples.version Examples.handle_date Examples.read_csv
      Examples.parse_utc Examples.known_zone self Examples.args in
  let req := page_request Examples.version self Examples.args None None
               (initial_state Examples.args) in
  is_returns (get_dataset 3%nat []) = false
  ∧ (∃ e tr', get_dataset 4%nat [] = Raises e tr')
  ∧ get_dataset 4%nat [] = Raises (AttributeError "get") ([] ++ [Sent req]).
Proof.
  destruct (csv_get_dataset_never_returns
              (Examples.scripted [] (Examples.page_of 1 false None))
              Examples.version Examples.handle_date Examples.read_csv Examples.parse_utc
              Examples.known_zone (Examples.client "csv" 3) Examples.args 3 [] eq_refl)
    as (H1 & H2 & H3).
  split_and!; [exact H1|exact H2|].
  eapply (H3 None None); try reflexivity. simpl. lia.
Defined.

(** ** Columns of a frame *)

Lemma occurrences_app h (l1 l2 : list string) :
  occurrences h (l1 ++ l2) = (occurrences h l1 + occurrences h l2)%nat.
Proof. unfold occurrences. by rewrite filter_app, length_app. Qed.

Lemma occurrences_cons h h' (l : list string) :
  occurrences h (h' :: l) =
    ((if decide (h' = h) then 1 else 0) + occurrences h l)%nat.
Proof.
  unfold occurrences. destruct (decide (h' = h)).
  - by rewrite filter_cons_True.
  - by rewrite filter_cons_False.
Qed.

Lemma occurrences_zero h (l : list string) : occurrences h l = 0%nat ↔ h ∉ l.
Proof.
  induction l as [|h' l IH].
  - split; [intros _; apply not_elem_of_nil|done].
  - rewrite occurrences_cons, not_elem_of_cons. destruct (decide (h' = h)) as [->|].
    + split; [done|]. by intros [? _].
    + rewrite <- IH. split; [intros; split; [done|lia]|intros [_ ?]; lia].
Qed.

Lemma occurrences_once h (pre rest : list string) :
  occurrences h (pre ++ h :: rest) = 1%nat ↔ (h ∉ pre) ∧ (h ∉ rest).
Proof.
  rewrite occurrences_app, occurrences_cons, decide_True by done.
  rewrite <- !occurrences_zero. lia.
Qed.

Lemma on_column_absent f (header : list string) h : ∀ row,
  h ∉ header → on_column f header h row = Some row.
Proof.
  induction header as [|h' header IH]; intros [|c row] Hnotin; try done.
  apply not_elem_of_cons in Hnotin as [Hne Hnotin]. simpl.
  rewrite decide_False by done. simpl. by rewrite IH.
Qed.

(** [on_column] on a header in which the label occurs once: the cell at that
    position is replaced by its image, nothing else changes. *)
Lemma on_column_at f (pre : list string) h rest : ∀ row row',
  h ∉ pre → h ∉ rest →
  on_column f (pre ++ h :: rest) h row = Some row' →
  length row' = length row ∧
  ∀ j, row' !! j = row !! j ≫= (if decide (j = length pre) then f else Some).
Proof.
  induction pre as [|h' pre IH]; intros [|c row] row' Hpre Hrest Hrow;
    simpl in Hrow.
  - injection Hrow as <-. by split; [|intros j; rewrite lookup_nil].
  - rewrite decide_True in Hrow by done.
    destruct (f c) as [c'|] eqn:Hc; [|done]. simpl in Hrow.
    rewrite on_column_absent in Hrow by done. simpl in Hrow. injection Hrow as <-.
    split; [done|]. intros [|j]; simpl; [by rewrite Hc|by destruct (row !! j)].
  - injection Hrow as <-. by split; [|intros j; rewrite lookup_nil].
  - apply not_elem_of_cons in Hpre as [Hne Hpre].
    rewrite decide_False in Hrow by done. simpl in Hrow.
    destruct (on_column f (pre ++ h :: rest) h row) as [row''|] eqn:Hrec; [|done].
    simpl in Hrow. injection Hrow as <-.
    destruct (IH row row'' Hpre Hrest Hrec) as [Hlen Hcells].
    split; [simpl; by rewrite Hlen|].
    intros [|j]; simpl; [done|]. rewrite Hcells.
    destruct (row !! j); [|done]. simpl. by repeat case_decide; try lia.
Qed.

(** [on_column] leaves a row as it is when [f] fixes the cells under the
    label. *)
Lemma on_column_fixed f (header : list string) h : ∀ row,
  (∀ j c, header !! j = Some h → row !! j = Some c → f c = Some c) →
  on_column f header h row = Some row.
Proof.
  induction header as [|h' header IH]; intros [|c row] Hfix; try done.
  simpl. rewrite IH by (intros j c' ??; by apply (Hfix (S j))). simpl.
  destruct (decide (h' = h)) as [->|]; [|done].
  by rewrite (Hfix 0%nat c eq_refl eq_refl).
Qed.

Lemma rows_acted_trans f g k (rows rows1 rows2 : list (list cell)) :
  (∀ j c, f j c ≫= g j = k j c) →
  rows_acted f rows rows1 → rows_acted g rows1 rows2 → rows_acted k rows rows2.
Proof.
  intros Hk H1 H2. unfold rows_acted in *.
  eapply Forall2_trans; [|exact H1|exact H2].
  intros row row1 row2 [Hlen1 Hc1] [Hlen2 Hc2]. split; [congruence|].
  intros j. rewrite Hc2, Hc1. destruct (row !! j) as [c|]; [|done]. apply Hk.
Qed.

Lemma rows_acted_refl f (rows : list (list cell)) :
  (∀ j c, f j c = Some c) → rows_acted f rows rows.
Proof.
  intros Hf. apply Forall_Forall2_diag, Forall_forall. intros row _.
  split; [done|]. intros j. destruct (row !! j) as [c|]; [|done]. simpl. by rewrite Hf.
Qed.

(** [assign_column] returns only when the label occurs once; it then acts on
    the cells at that position and leaves the labels alone. *)
Lemma assign_column_spec f failure df h (pre rest : list string) tr df1 tr1 :
  columns df = pre ++ h :: rest →
  assign_column f failure df h tr = Returns df1 tr1 →
  tr1 = tr ∧ columns df1 = columns df ∧ (h ∉ pre) ∧ (h ∉ rest) ∧
  rows_acted (λ j, if decide (j = length pre) then f else Some) (rows df) (rows df1).
Proof.
  intros Hcols. unfold assign_column.
  destruct (occurrences h (columns df)) as [|[|n]] eqn:Hocc; [done| |done].
  rewrite Hcols in Hocc. apply occurrences_once in Hocc as [Hpre Hrest].
  destruct (mapM _ (rows df)) as [rows'|] eqn:Hrows; [|done].
  intros [= <- <-]. split_and!; try done. simpl.
  apply mapM_Some in Hrows. unfold rows_acted.
  eapply Forall2_impl; [exact Hrows|]. intros row row' Hrow. simpl in Hrow.
  rewrite Hcols in Hrow. by apply on_column_at in Hrow.
Qed.


Lemma rows_acted_ext f g (rows rows' : list (list cell)) :
  (∀ j c, f j c = g j c) → rows_acted f rows rows' → rows_acted g rows rows'.
Proof.
  intros Hfg Hrows. unfold rows_acted in *.
  eapply Forall2_impl; [exact Hrows|].
  intros row row' [Hlen Hcells]. split; [done|]. intros j. rewrite Hcells.
  destruct (row !! j); [apply Hfg|done].
Qed.

Lemma rename_once (df : DataFrame) (pre rest : list string) h new :
  columns df = pre ++ h :: rest → h ∉ pre → h ∉ rest →
  columns (rename df h new) = pre ++ new :: rest.
Proof.
  intros Hcols Hpre Hrest. unfold rename. simpl. rewrite Hcols, fmap_app, fmap_cons.
  rewrite decide_True by done. f_equal; [|f_equal].
  - rewrite <- (list_fmap_id pre) at 2. apply list_fmap_ext.
    intros i x Hx. rewrite decide_False; [done|].
    intros ->. apply Hpre. by eapply list_elem_of_lookup_2.
  - rewrite <- (list_fmap_id rest) at 2. apply list_fmap_ext.
    intros i x Hx. rewrite decide_False; [done|].
    intros ->. apply Hrest. by eapply list_elem_of_lookup_2.
Qed.

(** ** The normalisation loop *)

Section Normalizer.

Variable parse_utc : scalar → option (option Z).
Variable known_zone : string → bool.
Variables tz timezone : option string.
Variable all_columns : list ColumnMeta.

Local Abbreviation is_dt := (is_datetime_column all_columns).
Local Abbreviation conv := (converts tz timezone).
Local Abbreviation act := (column_action parse_utc tz timezone all_columns).
Local Abbreviation label := (column_label tz timezone all_columns).
Local Abbreviation normalize_column :=
  (normalize_column parse_utc known_zone tz timezone all_columns).
Local Abbreviation normalize_columns :=
  (normalize_columns parse_utc known_zone tz timezone all_columns).
Local Abbreviation normalize := (normalize parse_utc known_zone tz timezone all_columns).

(** One turn of the loop, on the label [h] at position [length pre]. *)
Lemma normalize_column_spec cur h (pre rest : list string) tr cur1 tr1 :
  columns cur = pre ++ h :: rest →
  normalize_column cur h tr = Returns cur1 tr1 →
  tr1 = tr ∧ columns cur1 = pre ++ label h :: rest ∧
  (is_dt h = true → (h ∉ pre) ∧ (h ∉ rest)) ∧
  rows_acted (λ j, if decide (j = length pre) then act h else Some) (rows cur) (rows cur1).
Proof.
  intros Hcols. unfold normalize_column, column_label.
  destruct (is_dt h) eqn:Hdt; simpl.
  2:{ intros [= <- <-]. split_and!; try done.
      apply rows_acted_refl. intros j c. case_decide; [|done].
      unfold column_action. by rewrite Hdt. }
  intros Hrun. apply bind_inv_returns in Hrun as (cur' & tr' & Hparse & Hrun).
  destruct (assign_column_spec _ _ _ _ _ _ _ _ _ Hcols Hparse)
    as (-> & Hcols' & Hpre & Hrest & Hrows').
  destruct (conv h) eqn:Hconv.
  2:{ injection Hrun as <- <-. split_and!; try done; [congruence|].
      eapply rows_acted_ext; [|exact Hrows']. intros j c. simpl.
      case_decide; [|done]. unfold column_action. by rewrite Hdt, Hconv. }
  destruct (known_zone _); [|done].
  apply bind_inv_returns in Hrun as (cur'' & tr'' & Hconvert & Hrun).
  rewrite Hcols in Hcols'.
  destruct (assign_column_spec _ _ _ _ _ _ _ _ _ Hcols' Hconvert)
    as (-> & Hcols'' & _ & _ & Hrows'').
  injection Hrun as <- <-. split_and!; try done.
  - apply rename_once; [congruence|done..].
  - simpl. eapply rows_acted_trans; [|exact Hrows'|exact Hrows''].
    intros j c. simpl. case_decide; [|done].
    unfold column_action. by rewrite Hdt, Hconv.
Qed.

(** The turns for the labels [rest], from a frame whose labels are
    [pre ++ rest]: positions below [length pre] are left alone, every later
    position is acted on once, according to its label. *)
Lemma normalize_columns_spec (rest : list string) : ∀ (pre : list string) cur df' tr tr',
  columns cur = pre ++ rest →
  normalize_columns cur rest tr = Returns df' tr' →
  tr' = tr ∧ columns df' = pre ++ (label <$> rest) ∧
  rows_acted (acts_from act (length pre) rest) (rows cur) (rows df') ∧
  ∀ i h, rest !! i = Some h → is_dt h = true →
    (h ∉ pre) ∧ (h ∉ label <$> take i rest) ∧ (h ∉ drop (S i) rest).
Proof.
  induction rest as [|h rest IH]; intros pre cur df' tr tr' Hcols Hrun.
  { injection Hrun as <- <-. rewrite app_nil_r in *. split_and!; try done.
    apply rows_acted_refl. intros j c. unfold acts_from.
    case_decide; [done|]. by rewrite lookup_nil. }
  simpl in Hrun. apply bind_inv_returns in Hrun as (cur1 & tr1 & Hturn & Hrun).
  destruct (normalize_column_spec _ _ _ _ _ _ _ Hcols Hturn)
    as (-> & Hcols1 & Hunique & Hrows1).
  destruct (IH (pre ++ [label h]) cur1 df' tr tr') as (-> & Hcols' & Hrows' & Huniq');
    [by rewrite <- app_assoc|done|].
  split_and!; [done|by rewrite Hcols', <- app_assoc| |].
  - eapply rows_acted_trans; [|exact Hrows1|exact Hrows'].
    intros j c. unfold acts_from. rewrite length_app. simpl.
    destruct (decide (j = length pre)) as [->|Hj].
    + rewrite decide_True by lia. rewrite decide_False by lia.
      rewrite Nat.sub_diag. simpl. by destruct (act h c).
    + simpl. destruct (decide (j < length pre)%nat).
      * by rewrite decide_True by lia.
      * rewrite decide_False by lia.
        replace (j - length pre)%nat with (S (j - (length pre + 1)))%nat by lia. done.
  - intros [|i] h' Hh' Hdt.
    + injection Hh' as <-. destruct (Hunique Hdt) as [Hpre Hrest].
      split_and!; [done|apply not_elem_of_nil|done].
    + destruct (Huniq' i h' Hh' Hdt) as (Hpre & Htake & Hdrop).
      apply not_elem_of_app in Hpre as [Hpre Hlabel].
      split_and!; [done| |done].
      simpl. rewrite not_elem_of_cons. split; [|done].
      intros ->. apply Hlabel. by left.
Qed.

(** The whole loop. *)
Lemma normalize_spec df df' tr tr' :
  normalize df tr = Returns df' tr' →
  tr' = tr ∧ columns df' = label <$> columns df ∧
  rows_acted (λ j, from_option act Some (columns df !! j)) (rows df) (rows df') ∧
  ∀ i h, columns df !! i = Some h → is_dt h = true →
    (h ∉ label <$> take i (columns df)) ∧ (h ∉ drop (S i) (columns df)).
Proof.
  intros Hrun. unfold normalize in Hrun.
  destruct (normalize_columns_spec (columns df) [] df df' tr tr' eq_refl Hrun)
    as (-> & Hcols & Hrows & Hunique).
  split_and!; [done|done| |].
  - eapply rows_acted_ext; [|exact Hrows]. intros j c. unfold acts_from. simpl.
    by rewrite Nat.sub_0_r.
  - intros i h Hh Hdt. by destruct (Hunique i h Hh Hdt) as (_ & ? & ?).
Qed.

Lemma to_datetime_fixed c c' :
  to_datetime parse_utc c = Some c' → to_datetime parse_utc c' = Some c'.
Proof.
  destruct c as [v|t z|]; simpl.
  - destruct (parse_utc v) as [[t|]|]; by intros [= <-].
  - by intros [= <-].
  - by intros [= <-].
Qed.


(** On a settled frame every turn of the loop returns the frame as it is. *)
Lemma settled_noop df tr (names : list string) :
  settled parse_utc tz timezone all_columns df →
  (∀ h, h ∈ names → h ∈ columns df) →
  normalize_columns df names tr = Returns df tr.
Proof.
  intros Hsettled. induction names as [|h names IH]; intros Hnames; [done|].
  simpl. erewrite bind_returns; [apply IH; intros; apply Hnames; by right|].
  unfold normalize_column. destruct (is_dt h) eqn:Hdt; [|done].
  destruct (Hsettled h) as (Hconv & Honce & Hcells); [apply Hnames; by left|done|].
  erewrite bind_returns; [by rewrite Hconv|].
  unfold assign_column. rewrite Honce.
  assert (Hrows : mapM (on_column (to_datetime parse_utc) (columns df) h) (rows df) =
                    Some (rows df)).
  { apply mapM_Some, Forall_Forall2_diag, Forall_forall. intros row Hrow.
    apply on_column_fixed. intros j c Hj Hc. by eapply Hcells. }
  rewrite Hrows. by destruct df.
Qed.

(** A label of the result that is a datetime label was not renamed, when no
    renamed label is a datetime label. *)
Lemma datetime_label_kept (cols : list string) h :
  (∀ h, h ∈ cols → is_dt h = true → conv h = true → is_dt (local_name h) = false) →
  h ∈ cols → is_dt (label h) = true →
  label h = h ∧ is_dt h = true ∧ conv h = false.
Proof.
  intros Hrenamed Hin. unfold column_label.
  destruct (is_dt h) eqn:Hdt, (conv h) eqn:Hconv; simpl; try done.
  - by rewrite Hrenamed.
  - by rewrite Hdt.
  - by rewrite Hdt.
Qed.

(** The loop settles the frame, when no renamed label is a datetime label. *)
Lemma normalize_settles df df' tr tr' :
  (∀ h, h ∈ columns df → is_dt h = true → conv h = true →
     is_dt (local_name h) = false) →
  normalize df tr = Returns df' tr' →
  settled parse_utc tz timezone all_columns df'.
Proof.
  intros Hrenamed Hrun.
  destruct (normalize_spec df df' tr tr' Hrun) as (_ & Hcols & Hrows & Hunique).
  intros h' Hin Hdt'. rewrite Hcols in Hin.
  apply list_elem_of_fmap in Hin as (h & -> & Hin).
  destruct (datetime_label_kept _ h Hrenamed Hin Hdt') as (Hlabel & Hdt & Hconv).
  rewrite Hlabel. split_and!; [done| |].
  - apply list_elem_of_lookup in Hin as [i Hi].
    destruct (Hunique i h Hi Hdt) as [Htake Hdrop].
    rewrite Hcols, <- (take_drop_middle _ _ _ Hi), fmap_app, fmap_cons, Hlabel.
    apply occurrences_once. split; [done|].
    intros Hlater. apply list_elem_of_fmap in Hlater as (k & Hk & Hkin).
    assert (k ∈ columns df) as Hkcols
      by (eapply subseteq_drop; exact Hkin).
    destruct (datetime_label_kept _ k Hrenamed Hkcols) as (Hklabel & _ & _);
      [by rewrite <- Hk|].
    apply Hdrop. by rewrite Hk, Hklabel.
  - intros row' j c Hrow' Hj Hc.
    rewrite Hcols, list_lookup_fmap in Hj.
    destruct (columns df !! j) as [k|] eqn:Hk; [|done]. injection Hj as Hklabel.
    assert (k ∈ columns df) as Hkcols by (by eapply list_elem_of_lookup_2).
    destruct (datetime_label_kept _ k Hrenamed Hkcols) as (Hkk & _ & _);
      [by rewrite Hklabel|].
    assert (k = h) as -> by congruence.
    apply list_elem_of_lookup in Hrow' as [r Hr].
    destruct (Forall2_lookup_r _ _ _ _ _ Hrows Hr) as (row & _ & _ & Hcells).
    specialize (Hcells j). rewrite Hc, Hk in Hcells. simpl in Hcells.
    destruct (row !! j) as [c0|]; [|done]. simpl in Hcells.
    unfold column_action in Hcells. rewrite Hdt, Hconv in Hcells.
    by eapply to_datetime_fixed.
Qed.

(** C9, as the code has it.  Normalising the result of a normalisation
    returns it unchanged -- same labels, same values -- provided that no
    column which is converted and renamed gets a name that is itself a
    datetime label (for the metadata or the always-datetime list). *)
Theorem normalize_idempotent df df' tr tr' :
  (∀ h, h ∈ columns df → is_dt h = true → conv h = true →
     is_dt (local_name h) = false) →
  normalize df tr = Returns df' tr' →
  normalize df' tr' = Returns df' tr'.
Proof.
  intros Hrenamed Hrun. unfold normalize.
  apply settled_noop; [by eapply normalize_settles|done].
Qed.

(** Without a zone to convert to, nothing is renamed and the proviso holds. *)
Lemma normalize_twice_without_zone df df' tr tr' :
  non_utc tz = false → non_utc timezone = false →
  normalize df tr = Returns df' tr' →
  normalize df' tr' = Returns df' tr'.
Proof.
  intros Htz Htimezone Hrun. unfold normalize.
  apply settled_noop; [|done]. eapply normalize_settles; [|exact Hrun].
  intros h _ _. unfold converts. by rewrite Htz, Htimezone.
Qed.

End Normalizer.

(** ** Merging the pages *)



(** [pd_concat] keeps every row of every frame, in the order of the frames
    and of the rows in them. *)
Lemma pd_concat_spec (dfs : list DataFrame) tr merged tr' :
  pd_concat dfs tr = Returns merged tr' →
  tr' = tr ∧ rows merged = stacked_rows (columns merged) dfs.
Proof.
  unfold pd_concat, stacked_rows. destruct dfs as [|df0 rest]; [done|].
  case_bool_decide as Hsame.
  - intros [= <- <-]. split; [done|]. simpl.
    by rewrite bool_decide_eq_true_2 by (by constructor).
  - case_bool_decide; [|done]. intros [= <- <-]. split; [done|]. simpl.
    rewrite bool_decide_eq_false_2; [done|].
    intros Hall. apply Hsame. apply Forall_cons in Hall as [Hfirst Hall].
    eapply Forall_impl; [exact Hall|]. intros df Hdf. simpl in *. congruence.
Qed.

(** ** The result of [get_dataset] *)

Section Results.

Variable server : nat → Request → Response.
Variable version : string.
Variable handle_date : string → option string → option string.
Variable read_csv : string → option DataFrame.
Variable parse_utc : scalar → option (option Z).
Variable known_zone : string → bool.
Variable self : GridStatusClient.

Local Abbreviation fetch_pages := (fetch_pages server version read_csv).
Local Abbreviation normalize := (normalize parse_utc known_zone).
Local Abbreviation get_dataset :=
  (get_dataset server version handle_date read_csv parse_utc known_zone).

(** A call that returns went through the loop, the merge and the
    normalisation. *)
Lemma get_dataset_returns a fuel tr df tr' :
  get_dataset self a fuel tr = Returns df tr' →
  ∃ start' end' st tr1 merged metadata,
    truthy (tz a) && truthy (timezone a) = false ∧
    fetch_pages self a start' end' fuel (initial_state a) tr = Returns st tr1 ∧
    pd_concat (dfs st) tr1 = Returns merged tr1 ∧
    st_dataset_metadata st = Some metadata ∧
    normalize (tz a) (timezone a) (default [] (all_columns metadata)) merged tr1 =
      Returns df tr'.
Proof.
  intros Hrun.
  destruct (get_dataset_prologue server version handle_date read_csv parse_utc
              known_zone self a fuel tr)
    as [Hfail|[Hfail|(s & e & Hzones & _ & _ & Heq)]]; [congruence|congruence|].
  rewrite Heq in Hrun.
  apply bind_inv_returns in Hrun as (st & tr1 & Hpages & Hrun).
  apply bind_inv_returns in Hrun as (merged & tr2 & Hmerge & Hrun).
  destruct (pd_concat_spec _ _ _ _ Hmerge) as [-> _].
  destruct (st_dataset_metadata st) as [metadata|] eqn:Hmeta; [|done].
  by exists s, e, st, tr1, merged, metadata.
Qed.


(** C1, as the code has it.  With [timezone] set and not UTC (and no legacy
    [tz]), the loop adds no column: the table has the columns of the merged
    pages, position by position.  A datetime column whose label ends in
    "_utc" keeps its label and its place, and its values are those of the
    pages parsed as UTC timestamps; a "_local" column is there only if the
    pages brought a column that ends up under that label. *)
Theorem utc_columns_kept_none_added a fuel tr df tr' :
  truthy (tz a) = false →
  non_utc (timezone a) = true →
  get_dataset self a fuel tr = Returns df tr' →
  ∃ start' end' st tr1 merged metadata,
    fetch_pages self a start' end' fuel (initial_state a) tr = Returns st tr1 ∧
    pd_concat (dfs st) tr1 = Returns merged tr1 ∧
    st_dataset_metadata st = Some metadata ∧
    let all_columns := default [] (all_columns metadata) in
    length (columns df) = length (columns merged) ∧
    columns df = column_label (tz a) (timezone a) all_columns <$> columns merged ∧
    ∀ j h,
      columns merged !! j = Some h →
      is_datetime_column all_columns h = true →
      endswith h "_utc" = true →
      columns df !! j = Some h ∧
      Forall2 (λ row row', row' !! j = row !! j ≫= to_datetime parse_utc)
        (rows merged) (rows df).
Proof.
  intros Htz Htimezone Hrun.
  apply get_dataset_returns in Hrun
    as (s & e & st & tr1 & merged & metadata & _ & Hpages & Hmerge & Hmeta & Hnorm).
  exists s, e, st, tr1, merged, metadata. split_and!; [done..|]. cbv zeta.
  destruct (normalize_spec _ _ _ _ _ _ _ _ _ Hnorm) as (_ & Hcols & Hacted & _).
  split_and!; [by rewrite Hcols, length_fmap|done|].
  intros j h Hj Hdt Hutc.
  assert (Hconv : converts (tz a) (timezone a) h = false).
  { unfold converts, non_utc at 1. by rewrite Htz, Hutc, andb_false_r. }
  split.
  - rewrite Hcols, list_lookup_fmap, Hj. simpl.
    unfold column_label. by rewrite Hconv, andb_false_r.
  - eapply Forall2_impl; [exact Hacted|]. intros row row' [_ Hcells].
    rewrite Hcells, Hj. simpl. destruct (row !! j) as [c|]; [|done]. simpl.
    unfold column_action. by rewrite Hdt, Hconv.
Qed.

Lemma dfs_state_after a start' end' pages : ∀ st,
  dfs (foldl (state_after a start' end') st pages) = dfs st ++ ((λ p, p.1.1) <$> pages).
Proof.
  induction pages as [|p pages IH]; intros st; simpl; [by rewrite app_nil_r|].
  rewrite IH. simpl. by rewrite <- app_assoc.
Qed.

(** X21. The other direction: when the server answers the page requests with
    [pages] and then [last], the first to announce no next page, the call is
    the merge and the normalisation of exactly these pages, in this order. *)
Lemma get_dataset_served a start' end' pages last tr fuel :
  request_format self = "json" → 0 ≤ max_retries self → 0 ≤ sleep_time a →
  truthy (tz a) && truthy (timezone a) = false →
  handle_optional_date handle_date (start a) (tz a) tr = Returns start' tr →
  handle_optional_date handle_date (end_ a) (tz a) tr = Returns end' tr →
  serves server version self a start' end' (initial_state a) (requests_sent tr)
    (pages ++ [last]) →
  Forall (λ p, more_pages p = true) pages →
  more_pages last = false →
  get_dataset self a (S (length pages) + fuel) tr =
    (df ← pd_concat ((λ p, p.1.1) <$> pages ++ [last]);
     normalize (tz a) (timezone a) (default [] (all_columns last.2)) df)
    (tr ++ page_events version self a start' end' (initial_state a) (pages ++ [last])).
Proof.
  intros Hjson Hretries Hsleep Hzones Hstart Hend Hserves Hmore Hlast.
  unfold get_dataset. rewrite Hzones.
  erewrite bind_returns by done. erewrite bind_returns by done.
  erewrite bind_returns by done.
  destruct (fetch_pages_served server version read_csv self a start' end'
              Hjson Hretries Hsleep pages last (initial_state a) tr fuel eq_refl
              Hserves Hmore Hlast) as [Hpages _].
  erewrite bind_returns by exact Hpages.
  rewrite dfs_state_after. simpl dfs. rewrite app_nil_l.
  unfold mbind, M_bind. destruct (pd_concat _ _) as [df tr1| |]; [|done..].
  by rewrite foldl_app.
Qed.

End Results.

(** ** The result of [get_dataset] on concrete servers *)


(** The scenario of the specification: [limit=150], [page_size=100], pages
    of 100, 100 and 50 rows: three requests, 250 rows, none dropped. *)
Lemma overshoot_is_returned :
  let out :=
    get_dataset Examples.three_pages Examples.version Examples.handle_date
      Examples.read_csv Examples.parse_utc Examples.known_zone
      (Examples.client "json" 3) (Examples.with_limit 150 100 Examples.args) 5 [] in
  requests_sent <$> trace_of out = Some 3%nat
  ∧ length ∘ rows <$> value_of out = Some 250%nat.
Proof. cbv zeta. split; by vm_compute. Qed.

(** C1 fails as stated: with [timezone="America/New_York"] and pages that
    bring [interval_start_utc] and [load], the table has these two columns
    and no [interval_start_local]. *)
Lemma no_local_column_is_produced :
  let out :=
    get_dataset Examples.two_pages Examples.version Examples.handle_date
      Examples.read_csv Examples.parse_utc Examples.known_zone
      (Examples.client "json" 3) Examples.args_new_york 5 [] in
  timezone Examples.args_new_york = Some "America/New_York"
  ∧ is_datetime_column Examples.time_column "interval_start_utc" = true
  ∧ columns <$> value_of out = Some ["interval_start_utc"; "load"]
  ∧ (λ df, bool_decide ("interval_start_local" ∈ columns df)) <$> value_of out =
      Some false.
Proof. cbv zeta. split_and!; by vm_compute. Qed.

Lemma utc_columns_kept_none_added_witness :
  ∃ start' end' st tr1 merged metadata,
    fetch_pages Examples.two_pages Examples.version Examples.read_csv
      (Examples.client "json" 3) Examples.args_new_york start' end' 5
      (initial_state Examples.args_new_york) [] = Returns st tr1 ∧
    pd_concat (dfs st) tr1 = Returns merged tr1 ∧
    st_dataset_metadata st = Some metadata ∧
    let all_columns := default [] (all_columns metadata) in
    length (columns Examples.new_york_table) = length (columns merged) ∧
    columns Examples.new_york_table =
      column_label (tz Examples.args_new_york) (timezone Examples.args_new_york)
        all_columns <$> columns merged ∧
    ∀ j h,
      columns merged !! j = Some h →
      is_datetime_column all_columns h = true →
      endswith h "_utc" = true →
      columns Examples.new_york_table !! j = Some h ∧
      Forall2 (λ row row', row' !! j = row !! j ≫= to_datetime Examples.parse_utc)
        (rows merged) (rows Examples.new_york_table).
Proof.
  apply (utc_columns_kept_none_added Examples.two_pages Examples.version
           Examples.handle_date Examples.read_csv Examples.parse_utc Examples.known_zone
           (Examples.client "json" 3) Examples.args_new_york 5 []
           Examples.new_york_table Examples.new_york_events).
  - reflexivity.
  - reflexivity.
  - vm_compute. reflexivity.
Defined.

(** C9 fails as stated: the frame below comes out of a normalisation and has
    no label ending in "_utc", yet normalising it again renames
    [publish_time_local] to [publish_time_local_local]. *)
Lemma second_pass_renames_again :
  let normalize :=
    normalize Examples.parse_utc Examples.known_zone None (Some "America/New_York")
      Examples.publish_columns in
  normalize Examples.publish_frame [] = Returns Examples.publish_frame_once []
  ∧ Forall (λ h, endswith h "_utc" = false) (columns Examples.publish_frame_once)
  ∧ normalize Examples.publish_frame_once [] = Returns Examples.publish_frame_twice []
  ∧ normalize Examples.publish_frame_once [] ≠ Returns Examples.publish_frame_once [].
Proof.
  cbv zeta. split_and!; [by vm_compute|repeat constructor|by vm_compute|].
  by vm_compute.
Qed.

Lemma normalize_idempotent_witness :
  normalize Examples.parse_utc Examples.known_zone (Some "US/Central") None
    Examples.time_column Examples.interval_frame_central [] =
  Returns Examples.interval_frame_central [].
Proof.
  apply (normalize_idempotent Examples.parse_utc Examples.known_zone (Some "US/Central")
           None Examples.time_column Examples.interval_frame
           Examples.interval_frame_central [] []).
  - intros h Hin _ _.
    apply elem_of_cons in Hin as [->|Hin]; [by vm_compute|].
    apply elem_of_cons in Hin as [->|Hin]; [by vm_compute|].
    by apply elem_of_nil in Hin.
  - by vm_compute.
Defined.

(** * Further properties of the client *)

(** ** [get]: the retry budget *)

Section RetryBudget.

Variable server : nat → Request → Response.
Variable version : string.
Variable read_csv : string → option DataFrame.
Variable self : GridStatusClient.

Local Abbreviation get := (get server version read_csv).
Local Abbreviation decode := (decode read_csv).

Lemma decode_keeps_trace response tr :
  trace_of (decode self response tr) = Some tr.
Proof.
  unfold decode. destruct response as [r|]; [|done].
  repeat case_bool_decide; try done.
  - destruct (json r) as [data|]; [|done]. by destruct (DataFrame_of_rows _ _).
  - by destruct (read_csv _).
Qed.

(** The events of the retry loop, from any turn on: some rate-limited
    attempts followed by one last request. *)
Lemma retry_loop_events req fuel : ∀ retries response tr,
  retries ≤ max_retries self →
  max_retries self + 1 - retries ≤ Z.of_nat fuel →
  ∃ k : nat,
    retries + Z.of_nat k ≤ max_retries self ∧
    trace_of (retry_loop server self req fuel retries response tr) =
      Some (tr ++ backoff req retries k ++ [Sent req]).
Proof.
  induction fuel as [|fuel IH]; intros retries response tr Hle Hfuel; [lia|].
  rewrite retry_loop_turn by done. cbv zeta.
  destruct (decide (status_code _ = 200)); [exists 0%nat; split; [lia|done]|].
  destruct (decide (status_code _ = 429)); [|exists 0%nat; split; [lia|done]].
  destruct (decide (retries = _)); [exists 0%nat; split; [lia|done]|].
  destruct (IH (retries + 1) (Some (server (requests_sent tr) req))
              ((tr ++ [Sent req]) ++ [Slept (initial_delay * 2 ^ retries)]))
    as (k & Hk & Htrace); [lia|lia|].
  exists (S k). split; [lia|]. rewrite Htrace. simpl. by rewrite <- !app_assoc.
Qed.

(** X1. A negative [max_retries] leaves the loop no turn: [get] sends nothing
    and fails on the unbound local [response]. *)
Theorem get_without_retry_budget url params tr :
  max_retries self < 0 →
  get self url params tr = Raises (UnboundLocalError "response") tr.
Proof.
  intros Hneg. unfold get.
  replace (Z.to_nat (max_retries self + 1)) with 0%nat by lia.
  simpl. by rewrite bool_decide_eq_false_2 by lia.
Qed.

(** X2. Whatever the server answers, [get] ends, and what it adds to the
    trace is some [k <= max_retries] rate-limited attempts and one last
    request: at most [max_retries + 1] requests, all of them the same, the
    waits being 1, 2, 4, ... seconds, [2^k - 1] in all.  Decoding adds no
    event. *)
Theorem get_sends_at_most_the_budget url params tr :
  0 ≤ max_retries self →
  let req := get_request version self url params in
  ∃ k : nat,
    Z.of_nat k ≤ max_retries self ∧
    trace_of (get self url params tr) = Some (tr ++ backoff req 0 k ++ [Sent req]) ∧
    requests (backoff req 0 k ++ [Sent req]) = replicate (S k) req ∧
    total_slept (backoff req 0 k ++ [Sent req]) = 2 ^ Z.of_nat k - 1.
Proof.
  intros Hretries req.
  destruct (retry_loop_events req (Z.to_nat (max_retries self + 1)) 0 None tr)
    as (k & Hk & Htrace); [lia|lia|].
  exists k. split_and!; [lia| | |].
  - unfold get. fold req. unfold mbind, M_bind.
    destruct (retry_loop _ _ _ _ _ _ _) as [r tr1|e tr1|]; simpl in Htrace.
    + injection Htrace as ->. apply decode_keeps_trace.
    + done.
    + done.
  - rewrite requests_app, requests_backoff. simpl. by rewrite <- replicate_cons_app.
  - rewrite total_slept_app, total_slept_backoff, sum_pow2_closed by lia.
    simpl. unfold initial_delay. lia.
Qed.

End RetryBudget.

Lemma get_without_retry_budget_witness :
  get (Examples.scripted [] (Examples.page_of 1 false None)) Examples.version
    Examples.read_csv (Examples.client "json" (-1)) "u" ∅ [] =
  Raises (UnboundLocalError "response") [].
Proof.
  apply (get_without_retry_budget (Examples.scripted [] (Examples.page_of 1 false None))
           Examples.version Examples.read_csv (Examples.client "json" (-1)) "u" ∅ []).
  simpl. lia.
Defined.

Lemma get_sends_at_most_the_budget_witness :
  let self := Examples.client "json" 3 in
  let req := get_request Examples.version self "u" ∅ in
  ∃ k : nat,
    Z.of_nat k ≤ max_retries self ∧
    trace_of (get (Examples.rate_limiting 2 (Examples.page_of 1 false None))
                Examples.version Examples.read_csv self "u" ∅ []) =
      Some ([] ++ backoff req 0 k ++ [Sent req]) ∧
    requests (backoff req 0 k ++ [Sent req]) = replicate (S k) req ∧
    total_slept (backoff req 0 k ++ [Sent req]) = 2 ^ Z.of_nat k - 1.
Proof.
  apply (get_sends_at_most_the_budget
           (Examples.rate_limiting 2 (Examples.page_of 1 false None))
           Examples.version Examples.read_csv (Examples.client "json" 3) "u" ∅ []).
  simpl. lia.
Defined.

(** ** The page loop: retries, failures, invariants *)

Section PageLoop.

Variable server : nat → Request → Response.
Variable version : string.
Variable handle_date : string → option string → option string.
Variable read_csv : string → option DataFrame.
Variable parse_utc : scalar → option (option Z).
Variable known_zone : string → bool.
Variable self : GridStatusClient.
Variable a : DatasetArgs.
Variables start' end' : option string.

Local Abbreviation get := (get server version read_csv).
Local Abbreviation fetch_page := (fetch_page server version read_csv self a start' end').
Local Abbreviation fetch_pages := (fetch_pages server version read_csv self a start' end').
Local Abbreviation page_request := (page_request version self a start' end').
Local Abbreviation state_after := (state_after a start' end').
Local Abbreviation serves := (serves server version self a start' end').
Local Abbreviation page_events := (page_events version self a start' end').
Local Abbreviation get_dataset :=
  (get_dataset server version handle_date read_csv parse_utc known_zone).

(** [get_dataset] once the zones are checked and the dates handled. *)
Lemma get_dataset_body fuel tr :
  truthy (tz a) && truthy (timezone a) = false →
  handle_optional_date handle_date (start a) (tz a) tr = Returns start' tr →
  handle_optional_date handle_date (end_ a) (tz a) tr = Returns end' tr →
  get_dataset self a fuel tr =
    (st ← fetch_pages fuel (initial_state a);
     df ← pd_concat (dfs st);
     match st_dataset_metadata st with
     | None => raise (AttributeError "get")
     | Some dataset_metadata =>
         normalize parse_utc known_zone (tz a) (timezone a)
           (default [] (all_columns dataset_metadata)) df
     end) tr.
Proof.
  intros Hzones Hstart Hend. unfold get_dataset. rewrite Hzones.
  erewrite bind_returns by done. erewrite bind_returns by done.
  by erewrite bind_returns by done.
Qed.

(** The turn of the loop in terms of what [get] returns. *)
Lemma fetch_page_unfold st tr :
  fetch_page st tr =
    match get self (host self +:+ "/datasets/" +:+ dataset a +:+ "/query")
            (page_params a start' end' st).1 tr with
    | Returns (df, Some m, dm) tr1 =>
        if sleep_time a <? 0
        then Raises (ValueError "sleep length must be non-negative") tr1
        else Returns
               {| page := page st + 1;
                  has_next_page := default false (hasNextPage m);
                  dfs := dfs st ++ [df];
                  total_rows := total_rows st + Z.of_nat (length (rows df));
                  cursor := next_cursor m;
                  st_dataset_metadata := dm;
                  st_filter_value := (page_params a start' end' st).2 |}
               (tr1 ++ [Slept (sleep_time a)])
    | Returns (df, None, dm) tr1 => Raises (AttributeError "get") tr1
    | Raises e tr1 => Raises e tr1
    | OutOfFuel => OutOfFuel
    end.
Proof.
  unfold fetch_page. destruct (page_params a start' end' st) as [ps fv]. simpl.
  unfold mbind at 1. unfold M_bind at 1.
  destruct (get _ _ _ _) as [[[df [m|]] dm] tr1|e tr1|]; try done.
  unfold mbind, M_bind, sleep. by destruct (sleep_time a <? 0).
Qed.

(** What [get] returns on a page that arrives after [N] rate-limited
    attempts. *)
Lemma get_page_after_backoff st tr (N : nat) p :
  request_format self = "json" →
  Z.of_nat N ≤ max_retries self →
  (∀ i, (i < N)%nat →
     status_code (server (requests_sent tr + i) (page_request st)) = 429) →
  read_page (server (requests_sent tr + N) (page_request st)) = Some p →
  get self (host self +:+ "/datasets/" +:+ dataset a +:+ "/query")
    (page_params a start' end' st).1 tr =
  Returns (p.1.1, Some p.1.2, Some p.2)
    (tr ++ backoff (page_request st) 0 N ++ [Sent (page_request st)]).
Proof.
  intros Hjson Hretries H429 Hpage.
  rewrite (get_after_backoff server version read_csv self _ _ N tr Hretries H429).
  cbv zeta. unfold read_page in Hpage. unfold page_request in *.
  set (r := server _ _) in *.
  case_bool_decide as H200; [|done]. rewrite decide_True by done.
  destruct (json r) as [data|] eqn:Hjsonr; [|done]. simpl in Hpage.
  destruct (DataFrame_of_rows _ _) as [df|] eqn:Hdf; [|done].
  simpl in Hpage. injection Hpage as <-.
  unfold decode. rewrite Hjson. simpl. by rewrite Hjsonr, Hdf.
Qed.

(** X3. Every page has the whole retry budget: whatever the page, when its
    request is answered by [N <= max_retries] 429s and then by the page, the
    turn succeeds, and its waits start again at one second. *)
Theorem every_page_has_the_whole_budget st tr (N : nat) p :
  request_format self = "json" →
  0 ≤ sleep_time a →
  Z.of_nat N ≤ max_retries self →
  (∀ i, (i < N)%nat →
     status_code (server (requests_sent tr + i) (page_request st)) = 429) →
  read_page (server (requests_sent tr + N) (page_request st)) = Some p →
  fetch_page st tr =
    Returns (state_after st p)
      (tr ++ backoff (page_request st) 0 N ++
       [Sent (page_request st); Slept (sleep_time a)]).
Proof.
  intros Hjson Hsleep Hretries H429 Hpage.
  rewrite fetch_page_unfold.
  rewrite (get_page_after_backoff st tr N p Hjson Hretries H429 Hpage).
  destruct p as [[df m] dm]. simpl.
  destruct (Z.ltb_spec (sleep_time a) 0); [lia|].
  unfold state_after. simpl. by rewrite <- !app_assoc.
Qed.

(** X4. A negative [sleep_time] makes the fetch fail once the first page has
    arrived: one request is sent, its page is dropped, and the [ValueError]
    of [time.sleep] comes out. *)
Theorem negative_sleep_time_fails_after_first_page fuel tr p :
  request_format self = "json" →
  0 ≤ max_retries self →
  sleep_time a < 0 →
  truthy (tz a) && truthy (timezone a) = false →
  handle_optional_date handle_date (start a) (tz a) tr = Returns start' tr →
  handle_optional_date handle_date (end_ a) (tz a) tr = Returns end' tr →
  read_page (server (requests_sent tr) (page_request (initial_state a))) = Some p →
  get_dataset self a (S fuel) tr =
    Raises (ValueError "sleep length must be non-negative")
      (tr ++ [Sent (page_request (initial_state a))]).
Proof.
  intros Hjson Hretries Hsleep Hzones Hstart Hend Hpage.
  rewrite (get_dataset_body (S fuel) tr Hzones Hstart Hend).
  apply bind_raises. simpl fetch_pages. apply bind_raises.
  rewrite fetch_page_unfold.
  rewrite (get_page_after_backoff (initial_state a) tr 0 p Hjson);
    [|lia|intros i Hi; lia|by rewrite Nat.add_0_r].
  destruct p as [[df m] dm]. simpl.
  by destruct (Z.ltb_spec (sleep_time a) 0); [|lia].
Qed.

(** X5. A failure of one page aborts the fetch: after any number of pages
    received, a response that is neither 200 nor 429 makes [get_dataset]
    raise the error of that response; the pages received are not returned
    and no further request is sent. *)
Theorem failed_page_aborts_the_fetch pages fuel tr :
  request_format self = "json" →
  0 ≤ max_retries self →
  0 ≤ sleep_time a →
  truthy (tz a) && truthy (timezone a) = false →
  handle_optional_date handle_date (start a) (tz a) tr = Returns start' tr →
  handle_optional_date handle_date (end_ a) (tz a) tr = Returns end' tr →
  serves (initial_state a) (requests_sent tr) pages →
  Forall (λ p, more_pages p = true) pages →
  let st := foldl state_after (initial_state a) pages in
  let r := server (requests_sent tr + length pages) (page_request st) in
  status_code r ≠ 200 → status_code r ≠ 429 →
  get_dataset self a (S (length pages) + fuel) tr =
    Raises (HttpError (status_code r) (text r))
      (tr ++ page_events (initial_state a) pages ++ [Sent (page_request st)]).
Proof.
  intros Hjson Hretries Hsleep Hzones Hstart Hend Hserves Hmore st r Hn200 Hn429.
  rewrite (get_dataset_body _ tr Hzones Hstart Hend).
  apply bind_raises.
  replace (S (length pages) + fuel)%nat with (length pages + S fuel)%nat by lia.
  destruct (fetch_pages_run server version read_csv self a start' end'
              Hjson Hretries Hsleep pages (initial_state a) tr (S fuel) eq_refl
              Hserves Hmore) as [-> Hnext].
  rewrite fetch_pages_turn by done. apply bind_raises.
  rewrite fetch_page_unfold. fold st.
  rewrite (get_after_backoff server version read_csv self _ _ 0
             (tr ++ page_events (initial_state a) pages));
    [|done|intros i Hi; lia].
  cbv zeta. rewrite Nat.add_0_r, requests_sent_app, requests_sent_page_events.
  fold (page_request st). fold r.
  rewrite decide_False by done. rewrite decide_False by done.
  simpl. by rewrite <- app_assoc.
Qed.





Lemma page_params_key st (key : string) :
  key ≠ "cursor" → key ≠ "filter_column" → key ≠ "filter_value" →
  key ≠ "filter_operator" → key ≠ "columns" →
  key ≠ "return_format" → key ≠ "json_schema" →
  params (page_request st) !! key =
    (list_to_map [
       ("start_time", opt_str start');
       ("end_time", opt_str end');
       ("limit", opt_int (limit a));
       ("page", PyInt (page st));
       ("page_size", opt_int (page_size a));
       ("resample_frequency", opt_str (resample a));
       ("resample_by", from_option (λ l, PyStr (join "," l)) PyNone (resample_by a));
       ("resample_function",
          if truthy (resample a) then PyStr (resample_function a) else PyNone);
       ("publish_time", opt_str (publish_time a));
       ("timezone", opt_str (timezone a))
     ] : gmap string pyval) !! key.
Proof.
  intros. unfold page_request. rewrite get_request_param by done.
  unfold page_params.
  destruct (use_cursor_pagination a), (_ || _); simpl; destruct (columns_ a);
    by rewrite ?lookup_insert_ne by done.
Qed.

Lemma page_request_page st :
  params (page_request st) !! "page" = Some (PyInt (page st)).
Proof. by rewrite page_params_key. Qed.

Lemma page_request_no_cursor st :
  use_cursor_pagination a = false → params (page_request st) !! "cursor" = None.
Proof.
  intros Hcursor. unfold page_request. rewrite get_request_param by done.
  unfold page_params. rewrite Hcursor.
  destruct (_ || _); simpl; destruct (columns_ a);
    by rewrite ?lookup_insert_ne by done.
Qed.

Lemma requests_page_events_cons st p all :
  requests (page_events st (p :: all)) =
    page_request st :: requests (page_events (state_after st p) all).
Proof. done. Qed.

Lemma pages_sent all : ∀ st,
  (λ r, params r !! "page") <$> requests (page_events st all) =
    (λ i : nat, Some (PyInt (page st + Z.of_nat i))) <$> seq 0 (length all).
Proof.
  induction all as [|p all IH]; intros st; [done|].
  rewrite requests_page_events_cons, fmap_cons, page_request_page, IH.
  cbn [length seq]. rewrite fmap_cons, Z.add_0_r. f_equal.
  rewrite <- fmap_S_seq, <- list_fmap_compose.
  apply list_fmap_ext. intros _ i _. cbn. do 2 f_equal. lia.
Qed.

Lemma cursors_sent pages last : ∀ st,
  use_cursor_pagination a = true →
  (λ r, params r !! "cursor") <$> requests (page_events st (pages ++ [last])) =
    Some (opt_str (cursor st)) :: ((λ p, Some (opt_str (next_cursor p.1.2))) <$> pages).
Proof.
  induction pages as [|p pages IH]; intros st Hcursor.
  - rewrite app_nil_l, requests_page_events_cons, fmap_cons.
    by rewrite (page_request_cursor version self a start' end' st Hcursor).
  - rewrite <- app_comm_cons, requests_page_events_cons, !fmap_cons.
    rewrite (page_request_cursor version self a start' end' st Hcursor).
    f_equal. by rewrite IH.
Qed.

Lemma no_cursor_sent all : ∀ st,
  use_cursor_pagination a = false →
  (λ r, params r !! "cursor") <$> requests (page_events st all) =
    replicate (length all) None.
Proof.
  induction all as [|p all IH]; intros st Hcursor; [done|].
  rewrite requests_page_events_cons, fmap_cons, page_request_no_cursor by done.
  cbn [length replicate]. f_equal. by apply IH.
Qed.

(** X7. The requests of a fetch: page numbers 1, 2, 3, ... in either
    pagination mode; under cursor pagination the first request carries the
    empty cursor and each later one the cursor of the page received before
    it; without cursor pagination no request has a [cursor] parameter. *)
Theorem requests_number_pages_and_chain_cursors pages last tr fuel :
  request_format self = "json" →
  0 ≤ max_retries self →
  0 ≤ sleep_time a →
  serves (initial_state a) (requests_sent tr) (pages ++ [last]) →
  Forall (λ p, more_pages p = true) pages →
  more_pages last = false →
  ∃ st' new,
    fetch_pages (S (length pages) + fuel) (initial_state a) tr = Returns st' (tr ++ new) ∧
    (λ r, params r !! "page") <$> requests new =
      (λ i : nat, Some (PyInt (1 + Z.of_nat i))) <$> seq 0 (S (length pages)) ∧
    (λ r, params r !! "cursor") <$> requests new =
      if use_cursor_pagination a
      then Some (PyStr "") :: ((λ p, Some (opt_str (next_cursor p.1.2))) <$> pages)
      else replicate (S (length pages)) None.
Proof.
  intros Hjson Hretries Hsleep Hserves Hmore Hlast.
  destruct (fetch_pages_served server version read_csv self a start' end'
              Hjson Hretries Hsleep pages last (initial_state a) tr fuel eq_refl
              Hserves Hmore Hlast) as [Hrun _].
  eexists _, _. split; [exact Hrun|]. split.
  - rewrite pages_sent, length_app. simpl length.
    by replace (length pages + 1)%nat with (S (length pages)) by lia.
  - destruct (use_cursor_pagination a) eqn:Hcursor.
    + by rewrite cursors_sent.
    + rewrite no_cursor_sent, length_app by done. simpl length.
      by replace (length pages + 1)%nat with (S (length pages)) by lia.
Qed.

(** The filter parameters of a turn when a filter column is given and the
    filter value is the list [l] or already its comma-joined form. *)
Lemma page_request_filter st l c :
  filter_operator a = "in" →
  filter_column a = Some c →
  st_filter_value st = PyList l ∨ st_filter_value st = PyStr (join "," l) →
  params (page_request st) !! "filter_column" = Some (PyStr c) ∧
  params (page_request st) !! "filter_value" = Some (PyStr (join "," l)) ∧
  params (page_request st) !! "filter_operator" = Some (PyStr "in") ∧
  (page_params a start' end' st).2 = PyStr (join "," l).
Proof.
  intros Hop Hcol Hvalue. unfold page_request.
  rewrite !get_request_param by done. unfold page_params.
  rewrite Hcol, Hop. rewrite (bool_decide_eq_true_2 (Some c ≠ None)) by done.
  rewrite orb_true_l.
  assert (Hjoined : match st_filter_value st with
                    | PyList l0 =>
                        if bool_decide ("in" = "in") then PyStr (join "," l0)
                        else PyList l0
                    | v => v
                    end = PyStr (join "," l)) by (by destruct Hvalue as [->| ->]).
  rewrite Hjoined.
  destruct (use_cursor_pagination a), (columns_ a); simpl;
    rewrite ?lookup_insert_ne by done; by rewrite ?lookup_insert_eq.
Qed.

Lemma filter_sent all l c : ∀ st,
  filter_operator a = "in" →
  filter_column a = Some c →
  st_filter_value st = PyList l ∨ st_filter_value st = PyStr (join "," l) →
  Forall (λ r, params r !! "filter_column" = Some (PyStr c) ∧
               params r !! "filter_value" = Some (PyStr (join "," l)) ∧
               params r !! "filter_operator" = Some (PyStr "in"))
    (requests (page_events st all)).
Proof.
  induction all as [|p all IH]; intros st Hop Hcol Hvalue; [constructor|].
  rewrite requests_page_events_cons.
  destruct (page_request_filter st l c Hop Hcol Hvalue) as (? & ? & ? & Hnext).
  constructor; [done|]. apply IH; [done..|]. right. exact Hnext.
Qed.

(** X8. A list of filter values under the operator "in" is sent joined by
    commas, and in that same form on every page, with the filter column and
    the operator. *)
Theorem list_filter_is_joined_on_every_page pages last tr fuel l c :
  filter_value a = PyList l →
  filter_operator a = "in" →
  filter_column a = Some c →
  request_format self = "json" →
  0 ≤ max_retries self →
  0 ≤ sleep_time a →
  serves (initial_state a) (requests_sent tr) (pages ++ [last]) →
  Forall (λ p, more_pages p = true) pages →
  more_pages last = false →
  ∃ st' new,
    fetch_pages (S (length pages) + fuel) (initial_state a) tr = Returns st' (tr ++ new) ∧
    length (requests new) = S (length pages) ∧
    Forall (λ r, params r !! "filter_column" = Some (PyStr c) ∧
                 params r !! "filter_value" = Some (PyStr (join "," l)) ∧
                 params r !! "filter_operator" = Some (PyStr "in"))
      (requests new).
Proof.
  intros Hvalue Hop Hcol Hjson Hretries Hsleep Hserves Hmore Hlast.
  destruct (fetch_pages_served server version read_csv self a start' end'
              Hjson Hretries Hsleep pages last (initial_state a) tr fuel eq_refl
              Hserves Hmore Hlast) as [Hrun _].
  eexists _, _. split; [exact Hrun|]. split.
  - rewrite <- requests_sent_requests,
      (requests_sent_page_events version self a start' end'), length_app.
    simpl. lia.
  - apply (filter_sent _ l c); [done..|]. left. exact Hvalue.
Qed.

(** X9. The client puts no cap on the number of pages: against a server
    that keeps announcing a next page, the fetch neither returns nor fails,
    however many turns it is given. *)
Theorem fetch_has_no_page_cap
    (page_of : nat → Request → DataFrame * Meta * DatasetMetadata) fuel tr :
  request_format self = "json" →
  0 ≤ max_retries self →
  0 ≤ sleep_time a →
  truthy (tz a) && truthy (timezone a) = false →
  handle_optional_date handle_date (start a) (tz a) tr = Returns start' tr →
  handle_optional_date handle_date (end_ a) (tz a) tr = Returns end' tr →
  (∀ n req, read_page (server n req) = Some (page_of n req) ∧
            more_pages (page_of n req) = true) →
  get_dataset self a fuel tr = OutOfFuel.
Proof.
  intros Hjson Hretries Hsleep Hzones Hstart Hend Hserver.
  rewrite (get_dataset_body fuel tr Hzones Hstart Hend).
  unfold mbind at 1. unfold M_bind at 1.
  by rewrite (endless_pages_never_end server version read_csv self a start' end'
                Hjson Hretries Hsleep page_of fuel (initial_state a) tr Hserver eq_refl).
Qed.

End PageLoop.

(** ** The normalisation loop: what it changes and when it fails *)

Section NormalizerMore.

Variable parse_utc : scalar → option (option Z).
Variable known_zone : string → bool.
Variables tz timezone : option string.
Variable all_columns : list ColumnMeta.

Local Abbreviation is_dt := (is_datetime_column all_columns).
Local Abbreviation conv := (converts tz timezone).
Local Abbreviation act := (column_action parse_utc tz timezone all_columns).
Local Abbreviation label := (column_label tz timezone all_columns).
Local Abbreviation zone := (default "" (py_or timezone tz)).
Local Abbreviation normalize_column :=
  (normalize_column parse_utc known_zone tz timezone all_columns).
Local Abbreviation normalize_columns :=
  (normalize_columns parse_utc known_zone tz timezone all_columns).
Local Abbreviation normalize := (normalize parse_utc known_zone tz timezone all_columns).

Lemma to_datetime_utc c c' :
  to_datetime parse_utc c = Some c' → c' = NaT ∨ ∃ t, c' = Timestamp t "UTC".
Proof.
  destruct c as [v|t z|]; simpl.
  - destruct (parse_utc v) as [[t|]|]; intros [= <-]; eauto.
  - intros [= <-]; eauto.
  - intros [= <-]; eauto.
Qed.

Lemma tz_convert_zone z c c' :
  tz_convert z c = Some c' → c' = NaT ∨ ∃ t, c' = Timestamp t z.
Proof. destruct c as [v|t z'|]; simpl; [done|..]; intros [= <-]; eauto. Qed.

(** The cells of the result, row by row and position by position. *)
Lemma normalize_cells df df' tr tr' r row' j :
  normalize df tr = Returns df' tr' →
  rows df' !! r = Some row' →
  ∃ row, rows df !! r = Some row ∧ length row' = length row ∧
         row' !! j = row !! j ≫= from_option act Some (columns df !! j).
Proof.
  intros Hrun Hrow'.
  destruct (normalize_spec _ _ _ _ _ _ _ _ _ Hrun) as (_ & _ & Hacted & _).
  destruct (Forall2_lookup_r _ _ _ _ _ Hacted Hrow') as (row & Hrow & Hlen & Hcells).
  exists row. by rewrite Hcells.
Qed.

(** X10. Columns that are not datetime columns come out as they went in:
    same label, same place, same values. *)
Theorem other_columns_are_untouched df df' tr tr' j h :
  normalize df tr = Returns df' tr' →
  columns df !! j = Some h →
  is_dt h = false →
  columns df' !! j = Some h ∧
  Forall2 (λ row row', row' !! j = row !! j) (rows df) (rows df').
Proof.
  intros Hrun Hj Hdt.
  destruct (normalize_spec _ _ _ _ _ _ _ _ _ Hrun) as (_ & Hcols & Hacted & _).
  split.
  - rewrite Hcols, list_lookup_fmap, Hj. simpl. unfold column_label. by rewrite Hdt.
  - eapply Forall2_impl; [exact Hacted|]. intros row row' [_ Hcells].
    rewrite Hcells, Hj. simpl. destruct (row !! j); [|done]. simpl.
    unfold column_action. by rewrite Hdt.
Qed.

(** X11. With no zone to convert to ([tz] and [timezone] unset or "UTC") no
    column is renamed, and every value of a datetime column is a UTC
    timestamp or the missing timestamp. *)
Theorem without_zone_labels_stay_and_times_are_utc df df' tr tr' :
  non_utc tz = false →
  non_utc timezone = false →
  normalize df tr = Returns df' tr' →
  columns df' = columns df ∧
  ∀ j h row' c,
    columns df !! j = Some h → is_dt h = true →
    row' ∈ rows df' → row' !! j = Some c →
    c = NaT ∨ ∃ t, c = Timestamp t "UTC".
Proof.
  intros Htz Htimezone Hrun.
  assert (Hconv : ∀ h, conv h = false)
    by (intros h; unfold converts; by rewrite Htz, Htimezone).
  destruct (normalize_spec _ _ _ _ _ _ _ _ _ Hrun) as (_ & Hcols & _ & _).
  split.
  - rewrite Hcols. rewrite <- (list_fmap_id (columns df)) at 2.
    apply list_fmap_ext. intros i h _. unfold column_label.
    by rewrite Hconv, andb_false_r.
  - intros j h row' c Hj Hdt Hrow' Hc.
    apply list_elem_of_lookup in Hrow' as [r Hr].
    destruct (normalize_cells df df' tr tr' r row' j Hrun Hr) as (row & _ & _ & Hcell).
    rewrite Hc, Hj in Hcell. simpl in Hcell.
    destruct (row !! j) as [c0|]; [|done]. simpl in Hcell.
    unfold column_action in Hcell. rewrite Hdt, Hconv in Hcell.
    by eapply to_datetime_utc.
Qed.

(** A run that returns has found the zone known whenever it had a column to
    convert. *)
Lemma normalize_columns_zone (rest : list string) : ∀ cur df' tr tr' h,
  normalize_columns cur rest tr = Returns df' tr' →
  h ∈ rest → is_dt h = true → conv h = true →
  known_zone zone = true.
Proof.
  induction rest as [|h0 rest IH]; intros cur df' tr tr' h Hrun Hin Hdt Hconv.
  { by apply elem_of_nil in Hin. }
  simpl in Hrun. apply bind_inv_returns in Hrun as (cur1 & tr1 & Hturn & Hrun).
  apply elem_of_cons in Hin as [->|Hin]; [|by eapply IH].
  unfold normalize_column in Hturn. rewrite Hdt in Hturn.
  apply bind_inv_returns in Hturn as (cur' & tr0 & _ & Hturn).
  rewrite Hconv in Hturn. by destruct (known_zone _).
Qed.

(** X12. A datetime column that is converted -- every one under a legacy
    [tz] other than UTC, those whose label does not end in "_utc" under
    [timezone] -- is renamed in place to its label without "_utc" followed by
    "_local"; its values are timestamps in the zone [timezone or tz], which
    the zone database knows. *)
Theorem converted_columns_are_renamed_in_place df df' tr tr' j h :
  normalize df tr = Returns df' tr' →
  columns df !! j = Some h →
  is_dt h = true →
  conv h = true →
  columns df' !! j = Some (local_name h) ∧
  known_zone zone = true ∧
  ∀ row' c, row' ∈ rows df' → row' !! j = Some c →
    c = NaT ∨ ∃ t, c = Timestamp t zone.
Proof.
  intros Hrun Hj Hdt Hconv.
  destruct (normalize_spec _ _ _ _ _ _ _ _ _ Hrun) as (_ & Hcols & _ & _).
  split_and!.
  - rewrite Hcols, list_lookup_fmap, Hj. simpl. unfold column_label.
    by rewrite Hdt, Hconv.
  - eapply (normalize_columns_zone (columns df)); [exact Hrun| |done..].
    by eapply list_elem_of_lookup_2.
  - intros row' c Hrow' Hc.
    apply list_elem_of_lookup in Hrow' as [r Hr].
    destruct (normalize_cells df df' tr tr' r row' j Hrun Hr) as (row & _ & _ & Hcell).
    rewrite Hc, Hj in Hcell. simpl in Hcell.
    destruct (row !! j) as [c0|]; [|done]. simpl in Hcell.
    unfold column_action in Hcell. rewrite Hdt, Hconv in Hcell.
    destruct (to_datetime parse_utc c0) as [c1|]; [|done]. simpl in Hcell.
    by eapply tz_convert_zone.
Qed.

(** X13. A frame in which the label of a datetime column occurs more than
    once is not normalised: the loop raises. *)
Theorem duplicate_datetime_label_fails df tr h :
  is_dt h = true →
  (2 ≤ occurrences h (columns df))%nat →
  is_returns (normalize df tr) = false.
Proof.
  intros Hdt Htwice.
  destruct (normalize df tr) as [df' tr'| |] eqn:Hrun; [|done..]. exfalso.
  destruct (normalize_spec _ _ _ _ _ _ _ _ _ Hrun) as (_ & _ & _ & Hunique).
  assert (Hin : h ∈ columns df).
  { destruct (decide (h ∈ columns df)) as [|Hnotin]; [done|].
    apply occurrences_zero in Hnotin. lia. }
  apply list_elem_of_split_l in Hin as (l1 & l2 & Hsplit & Hfirst).
  assert (Hi : columns df !! length l1 = Some h)
    by (rewrite Hsplit; by apply list_lookup_middle).
  destruct (Hunique _ _ Hi Hdt) as [_ Hlater].
  rewrite Hsplit, cons_middle, app_assoc in Hlater.
  rewrite drop_app_length' in Hlater by (rewrite length_app; simpl; lia).
  assert (occurrences h (columns df) = 1%nat)
    by (rewrite Hsplit; by apply occurrences_once).
  lia.
Qed.

(** X14. One value of a datetime column that cannot be parsed makes the
    whole normalisation fail: no table comes out. *)
Theorem unparsable_value_fails df tr j h row c :
  columns df !! j = Some h →
  is_dt h = true →
  row ∈ rows df →
  row !! j = Some c →
  to_datetime parse_utc c = None →
  is_returns (normalize df tr) = false.
Proof.
  intros Hj Hdt Hrow Hc Hparse.
  destruct (normalize df tr) as [df' tr'| |] eqn:Hrun; [|done..]. exfalso.
  destruct (normalize_spec _ _ _ _ _ _ _ _ _ Hrun) as (_ & _ & Hacted & _).
  apply list_elem_of_lookup in Hrow as [r Hr].
  destruct (Forall2_lookup_l _ _ _ _ _ Hacted Hr) as (row' & _ & Hlen & Hcells).
  specialize (Hcells j). rewrite Hc, Hj in Hcells. simpl in Hcells.
  assert (row' !! j = None) as Hnone.
  { rewrite Hcells. unfold column_action. rewrite Hdt, Hparse. by destruct (conv h). }
  apply lookup_ge_None in Hnone. apply lookup_lt_Some in Hc. lia.
Qed.

(** X15. A zone that the zone database does not know makes the
    normalisation fail as soon as the frame has a column to convert. *)
Theorem unknown_zone_fails df tr h :
  h ∈ columns df →
  is_dt h = true →
  conv h = true →
  known_zone zone = false →
  is_returns (normalize df tr) = false.
Proof.
  intros Hin Hdt Hconv Hzone.
  destruct (normalize df tr) as [df' tr'| |] eqn:Hrun; [|done..].
  unfold normalize in Hrun.
  rewrite (normalize_columns_zone _ _ _ _ _ _ Hrun Hin Hdt Hconv) in Hzone. done.
Qed.

(** X16. The normalisation has no effect on the world and keeps the shape
    of the frame: as many columns, as many rows, rows as long as before. *)
Theorem normalize_keeps_the_shape df df' tr tr' :
  normalize df tr = Returns df' tr' →
  tr' = tr ∧
  length (columns df') = length (columns df) ∧
  Forall2 (λ row row', length row' = length row) (rows df) (rows df').
Proof.
  intros Hrun.
  destruct (normalize_spec _ _ _ _ _ _ _ _ _ Hrun) as (-> & Hcols & Hacted & _).
  split_and!; [done|by rewrite Hcols, length_fmap|].
  eapply Forall2_impl; [exact Hacted|]. by intros row row' [Hlen _].
Qed.

End NormalizerMore.

(** ** The constructor *)


(** ** The catalogue *)

Section CatalogProperties.

Variable server : nat → Request → Response.
Variable version : string.
Variable read_csv : string → option DataFrame.
Variable lower : string → string.
Variable self : GridStatusClient.

Local Abbreviation get := (get server version read_csv).
Local Abbreviation matches := (matches lower).
Local Abbreviation match_datasets := (match_datasets lower).
Local Abbreviation list_datasets := (list_datasets server version read_csv lower).
Local Abbreviation hit := (hit lower).

Lemma match_datasets_all datasets : ∀ matched tr,
  match_datasets None datasets matched tr = Returns (matched ++ datasets) tr.
Proof.
  induction datasets as [|d datasets IH]; intros matched tr; simpl.
  - by rewrite app_nil_r.
  - erewrite bind_returns by done. rewrite IH. by rewrite <- app_assoc.
Qed.

(** When the condition is evaluated without an exception, its value is
    [hit]. *)
Lemma matches_hit term d tr b tr' :
  matches (Some term) d tr = Returns b tr' → tr' = tr ∧ b = hit term d.
Proof.
  unfold matches, hit, item, term_in, carries, mbind, M_bind, mret, M_ret, raise.
  destruct (d !! "id") as [[[| | |id]| |]|]; try done.
  destruct (contains (lower term) (lower id)); [by intros [= <- <-]|].
  destruct (d !! "name") as [[[| | |name]| |]|]; try done.
  destruct (contains (lower term) (lower name)); [by intros [= <- <-]|].
  destruct (dataset_description d) as [[| | |description]| |]; try done.
  by intros [= <- <-].
Qed.

Lemma match_datasets_cons filter_term d datasets matched :
  match_datasets filter_term (d :: datasets) matched =
    (b ← matches filter_term d;
     match_datasets filter_term datasets (if b : bool then matched ++ [d] else matched)).
Proof. done. Qed.

Lemma match_datasets_filter term datasets : ∀ matched tr result tr',
  match_datasets (Some term) datasets matched tr = Returns result tr' →
  tr' = tr ∧
  result = matched ++ filter (λ d, hit term d) datasets ∧
  Forall (λ d, is_returns (matches (Some term) d tr) = true) datasets.
Proof.
  induction datasets as [|d datasets IH]; intros matched tr result tr' Hrun.
  { injection Hrun as <- <-. split_and!; [done|by rewrite app_nil_r|constructor]. }
  rewrite match_datasets_cons in Hrun.
  apply bind_inv_returns in Hrun as (b & tr1 & Hd & Hrun).
  destruct (matches_hit _ _ _ _ _ Hd) as [-> ->].
  apply IH in Hrun as (-> & -> & Hall).
  split_and!; [done| |constructor; [by rewrite Hd|done]].
  destruct (hit term d) eqn:Hhit.
  - rewrite filter_cons_True by (rewrite Hhit; exact I). by rewrite <- app_assoc.
  - rewrite filter_cons_False; [done|]. rewrite Hhit. by intros [].
Qed.

(** X18. Without a filter term the whole catalogue comes back, record by
    record in the order of the rows, whatever the records hold (no [id], no
    [name] is needed) and whatever the client's format. *)
Theorem list_datasets_without_filter tr df m dm tr' :
  get self (host self +:+ "/datasets/") ∅ tr = Returns (df, m, dm) tr' →
  list_datasets self None tr = Returns (to_dict_records df) tr'.
Proof.
  intros Hget. unfold list_datasets. erewrite bind_returns by exact Hget.
  cbv beta iota. by rewrite match_datasets_all.
Qed.

(** X19. With a filter term, the records that come back are those of the
    catalogue that carry the term, lower-cased, in their lower-cased id, name
    or description, in the order of the catalogue; a missing description
    counts as empty. *)
Theorem list_datasets_filters term tr matched tr' :
  list_datasets self (Some term) tr = Returns matched tr' →
  ∃ df m dm,
    get self (host self +:+ "/datasets/") ∅ tr = Returns (df, m, dm) tr' ∧
    matched = filter (λ d, hit term d) (to_dict_records df).
Proof.
  unfold list_datasets. intros Hrun.
  apply bind_inv_returns in Hrun as ([[df m] dm] & tr1 & Hget & Hrun).
  apply match_datasets_filter in Hrun as (-> & -> & _).
  by exists df, m, dm.
Qed.

(** X20. With a filter term, a record without [id] makes the call fail,
    wherever it stands in the catalogue: nothing is returned. *)
Theorem list_datasets_needs_ids term tr df m dm tr' d :
  get self (host self +:+ "/datasets/") ∅ tr = Returns (df, m, dm) tr' →
  d ∈ to_dict_records df →
  d !! "id" = None →
  is_returns (list_datasets self (Some term) tr) = false.
Proof.
  intros Hget Hd Hid.
  destruct (list_datasets self (Some term) tr) as [matched tr1| |] eqn:Hrun; [|done..].
  exfalso. unfold list_datasets in Hrun. erewrite bind_returns in Hrun by exact Hget.
  cbv beta iota in Hrun. apply match_datasets_filter in Hrun as (_ & _ & Hall).
  rewrite Forall_forall in Hall. specialize (Hall d Hd).
  unfold matches, item in Hall. by rewrite Hid in Hall.
Qed.

End CatalogProperties.

(** ** The further properties on concrete inputs *)

Lemma every_page_has_the_whole_budget_witness :
  let self := Examples.client "json" 3 in
  let server := Examples.rate_limiting 2 (Examples.page_of 1 false None) in
  let st := Cases.two_pages_state in
  let req := page_request Examples.version self Examples.args None None st in
  fetch_page server Examples.version Examples.read_csv self Examples.args None None st [] =
    Returns (state_after Examples.args None None st (Examples.page 1 false None))
      ([] ++ backoff req 0 2 ++ [Sent req; Slept (sleep_time Examples.args)]).
Proof.
  apply (every_page_has_the_whole_budget
           (Examples.rate_limiting 2 (Examples.page_of 1 false None))
           Examples.version Examples.read_csv (Examples.client "json" 3) Examples.args
           None None Cases.two_pages_state [] 2 (Examples.page 1 false None)).
  - reflexivity.
  - simpl. lia.
  - simpl. lia.
  - intros [|[|i]] Hi; [reflexivity|reflexivity|lia].
  - by vm_compute.
Defined.

Lemma negative_sleep_time_fails_after_first_page_witness :
  let a := Cases.with_sleep_time (-1) Examples.args in
  get_dataset Examples.two_pages Examples.version Examples.handle_date Examples.read_csv
    Examples.parse_utc Examples.known_zone (Examples.client "json" 3) a 5 [] =
  Raises (ValueError "sleep length must be non-negative")
    ([] ++ [Sent (page_request Examples.version (Examples.client "json" 3) a None None
                    (initial_state a))]).
Proof.
  apply (negative_sleep_time_fails_after_first_page Examples.two_pages Examples.version
           Examples.handle_date Examples.read_csv Examples.parse_utc Examples.known_zone
           (Examples.client "json" 3) (Cases.with_sleep_time (-1) Examples.args)
           None None 4 [] (Examples.page 2 true (Some "c1"))).
  - reflexivity.
  - simpl. lia.
  - simpl. lia.
  - reflexivity.
  - reflexivity.
  - reflexivity.
  - by vm_compute.
Defined.

Lemma failed_page_aborts_the_fetch_witness :
  let self := Examples.client "json" 3 in
  let a := Examples.args in
  let server :=
    Examples.scripted [Examples.page_of 1 true (Some "c1")] Examples.internal_error in
  let pages := [Examples.page 1 true (Some "c1")] in
  let st := foldl (state_after a None None) (initial_state a) pages in
  get_dataset server Examples.version Examples.handle_date Examples.read_csv
    Examples.parse_utc Examples.known_zone self a (S (length pages) + 3) [] =
  Raises (HttpError 500 "Internal Server Error")
    ([] ++ page_events Examples.version self a None None (initial_state a) pages ++
     [Sent (page_request Examples.version self a None None st)]).
Proof.
  apply (failed_page_aborts_the_fetch
           (Examples.scripted [Examples.page_of 1 true (Some "c1")] Examples.internal_error)
           Examples.version Examples.handle_date Examples.read_csv Examples.parse_utc
           Examples.known_zone (Examples.client "json" 3) Examples.args None None
           [Examples.page 1 true (Some "c1")] 3 []).
  - reflexivity.
  - simpl. lia.
  - simpl. lia.
  - reflexivity.
  - reflexivity.
  - reflexivity.
  - split; [by vm_compute|exact I].
  - repeat constructor.
  - by vm_compute.
  - by vm_compute.
Defined.


Lemma requests_number_pages_and_chain_cursors_witness :
  let self := Examples.client "json" 3 in
  let a := Examples.args in
  let pages := [Examples.page 2 true (Some "c1")] in
  ∃ st' new,
    fetch_pages Examples.two_pages Examples.version Examples.read_csv self a None None
      (S (length pages) + 3) (initial_state a) [] = Returns st' ([] ++ new) ∧
    (λ r, params r !! "page") <$> requests new =
      (λ i : nat, Some (PyInt (1 + Z.of_nat i))) <$> seq 0 (S (length pages)) ∧
    (λ r, params r !! "cursor") <$> requests new =
      if use_cursor_pagination a
      then Some (PyStr "") :: ((λ p, Some (opt_str (next_cursor p.1.2))) <$> pages)
      else replicate (S (length pages)) None.
Proof.
  apply (requests_number_pages_and_chain_cursors Examples.two_pages Examples.version
           Examples.read_csv (Examples.client "json" 3) Examples.args None None
           [Examples.page 2 true (Some "c1")] (Examples.page 1 false None) [] 3).
  - reflexivity.
  - simpl. lia.
  - simpl. lia.
  - split; [by vm_compute|]. split; [by vm_compute|exact I].
  - repeat constructor.
  - reflexivity.
Defined.

Lemma list_filter_is_joined_on_every_page_witness :
  let self := Examples.client "json" 3 in
  let a := Cases.args_filter in
  let pages := [Examples.page 2 true (Some "c1")] in
  ∃ st' new,
    fetch_pages Examples.two_pages Examples.version Examples.read_csv self a None None
      (S (length pages) + 3) (initial_state a) [] = Returns st' ([] ++ new) ∧
    length (requests new) = S (length pages) ∧
    Forall (λ r, params r !! "filter_column" = Some (PyStr "location") ∧
                 params r !! "filter_value" = Some (PyStr (join "," ["HOUSTON"; "NORTH"])) ∧
                 params r !! "filter_operator" = Some (PyStr "in"))
      (requests new).
Proof.
  apply (list_filter_is_joined_on_every_page Examples.two_pages Examples.version
           Examples.read_csv (Examples.client "json" 3) Cases.args_filter None None
           [Examples.page 2 true (Some "c1")] (Examples.page 1 false None) [] 3
           ["HOUSTON"; "NORTH"] "location").
  - reflexivity.
  - reflexivity.
  - reflexivity.
  - reflexivity.
  - simpl. lia.
  - simpl. lia.
  - split; [by vm_compute|]. split; [by vm_compute|exact I].
  - repeat constructor.
  - reflexivity.
Defined.

Lemma fetch_has_no_page_cap_witness :
  get_dataset (Examples.scripted [] (Examples.page_of 1 true (Some "c")))
    Examples.version Examples.handle_date Examples.read_csv Examples.parse_utc
    Examples.known_zone (Examples.client "json" 3) Examples.args 7 [] = OutOfFuel.
Proof.
  apply (fetch_has_no_page_cap (Examples.scripted [] (Examples.page_of 1 true (Some "c")))
           Examples.version Examples.handle_date Examples.read_csv Examples.parse_utc
           Examples.known_zone (Examples.client "json" 3) Examples.args None None
           (λ _ _, Examples.page 1 true (Some "c")) 7 []).
  - reflexivity.
  - simpl. lia.
  - simpl. lia.
  - reflexivity.
  - reflexivity.
  - reflexivity.
  - intros n req. split; [|reflexivity].
    unfold Examples.scripted. rewrite lookup_nil. by vm_compute.
Defined.

Lemma other_columns_are_untouched_witness :
  columns Examples.interval_frame_central !! 1%nat = Some "load" ∧
  Forall2 (λ row row', row' !! 1%nat = row !! 1%nat)
    (rows Examples.interval_frame) (rows Examples.interval_frame_central).
Proof.
  apply (other_columns_are_untouched Examples.parse_utc Examples.known_zone
           (Some "US/Central") None Examples.time_column Examples.interval_frame
           Examples.interval_frame_central [] [] 1 "load").
  - by vm_compute.
  - reflexivity.
  - by vm_compute.
Defined.

Lemma without_zone_labels_stay_and_times_are_utc_witness :
  columns Cases.interval_frame_utc = columns Examples.interval_frame ∧
  ∀ j h row' c,
    columns Examples.interval_frame !! j = Some h →
    is_datetime_column Examples.time_column h = true →
    row' ∈ rows Cases.interval_frame_utc → row' !! j = Some c →
    c = NaT ∨ ∃ t, c = Timestamp t "UTC".
Proof.
  apply (without_zone_labels_stay_and_times_are_utc Examples.parse_utc
           Examples.known_zone None (Some "UTC") Examples.time_column
           Examples.interval_frame Cases.interval_frame_utc [] []).
  - reflexivity.
  - reflexivity.
  - by vm_compute.
Defined.

Lemma converted_columns_are_renamed_in_place_witness :
  columns Examples.interval_frame_central !! 0%nat = Some (local_name "interval_start_utc") ∧
  Examples.known_zone (default "" (py_or None (Some "US/Central"))) = true ∧
  ∀ row' c, row' ∈ rows Examples.interval_frame_central → row' !! 0%nat = Some c →
    c = NaT ∨ ∃ t, c = Timestamp t (default "" (py_or None (Some "US/Central"))).
Proof.
  apply (converted_columns_are_renamed_in_place Examples.parse_utc Examples.known_zone
           (Some "US/Central") None Examples.time_column Examples.interval_frame
           Examples.interval_frame_central [] [] 0 "interval_start_utc").
  - by vm_compute.
  - reflexivity.
  - by vm_compute.
  - by vm_compute.
Defined.

Lemma duplicate_datetime_label_fails_witness :
  is_returns (normalize Examples.parse_utc Examples.known_zone None None
                Examples.time_column Cases.twice_labelled_frame []) = false.
Proof.
  apply (duplicate_datetime_label_fails Examples.parse_utc Examples.known_zone None None
           Examples.time_column Cases.twice_labelled_frame [] "interval_start_utc").
  - by vm_compute.
  - vm_compute. lia.
Defined.

Lemma unparsable_value_fails_witness :
  is_returns (normalize Examples.parse_utc Examples.known_zone None None
                Examples.time_column Cases.unparsable_frame []) = false.
Proof.
  apply (unparsable_value_fails Examples.parse_utc Examples.known_zone None None
           Examples.time_column Cases.unparsable_frame [] 0 "interval_start_utc"
           [Raw (SStr "yesterday"); Raw (SNum 43 0)] (Raw (SStr "yesterday"))).
  - reflexivity.
  - by vm_compute.
  - right. left.
  - reflexivity.
  - reflexivity.
Defined.

Lemma unknown_zone_fails_witness :
  is_returns (normalize Examples.parse_utc Examples.known_zone (Some "Mars/Olympus") None
                Examples.time_column Examples.interval_frame []) = false.
Proof.
  apply (unknown_zone_fails Examples.parse_utc Examples.known_zone (Some "Mars/Olympus")
           None Examples.time_column Examples.interval_frame [] "interval_start_utc").
  - left.
  - by vm_compute.
  - by vm_compute.
  - by vm_compute.
Defined.

Lemma normalize_keeps_the_shape_witness :
  @nil event = [] ∧
  length (columns Examples.interval_frame_central) =
    length (columns Examples.interval_frame) ∧
  Forall2 (λ row row', length row' = length row)
    (rows Examples.interval_frame) (rows Examples.interval_frame_central).
Proof.
  apply (normalize_keeps_the_shape Examples.parse_utc Examples.known_zone
           (Some "US/Central") None Examples.time_column Examples.interval_frame
           Examples.interval_frame_central [] []).
  by vm_compute.
Defined.

Lemma list_datasets_without_filter_witness :
  list_datasets Cases.catalog Examples.version Examples.read_csv Cases.lower
    (Examples.client "json" 3) None [] =
  Returns (to_dict_records Cases.catalog_frame) [Sent Cases.catalog_request].
Proof.
  apply (list_datasets_without_filter Cases.catalog Examples.version Examples.read_csv
           Cases.lower (Examples.client "json" 3) [] Cases.catalog_frame
           (Some {| hasNextPage := None; next_cursor := None |})
           (Some {| all_columns := None |}) [Sent Cases.catalog_request]).
  by vm_compute.
Defined.

Lemma list_datasets_filters_witness :
  ∃ df m dm,
    get Cases.catalog Examples.version Examples.read_csv (Examples.client "json" 3)
      (host (Examples.client "json" 3) +:+ "/datasets/") ∅ [] =
      Returns (df, m, dm) [Sent Cases.catalog_request] ∧
    Cases.catalog_matched =
      filter (λ d, hit Cases.lower "LOAD" d) (to_dict_records df).
Proof.
  apply (list_datasets_filters Cases.catalog Examples.version Examples.read_csv
           Cases.lower (Examples.client "json" 3) "LOAD" [] Cases.catalog_matched
           [Sent Cases.catalog_request]).
  by vm_compute.
Defined.

Lemma list_datasets_needs_ids_witness :
  is_returns (list_datasets (Examples.scripted [] Cases.nameless_response)
                Examples.version Examples.read_csv Cases.lower
                (Examples.client "json" 3) (Some "load") []) = false.
Proof.
  apply (list_datasets_needs_ids (Examples.scripted [] Cases.nameless_response)
           Examples.version Examples.read_csv Cases.lower (Examples.client "json" 3)
           "load" [] Cases.nameless_frame
           (Some {| hasNextPage := None; next_cursor := None |})
           (Some {| all_columns := None |}) [Sent Cases.catalog_request]
           Cases.nameless_record).
  - by vm_compute.
  - left.
  - by vm_compute.
Defined.

Lemma get_dataset_served_witness :
  let self := Examples.client "json" 3 in
  let a := Examples.args in
  let pages := [Examples.page 2 true (Some "c1")] in
  let last := Examples.page 1 false None in
  get_dataset Examples.two_pages Examples.version Examples.handle_date Examples.read_csv
    Examples.parse_utc Examples.known_zone self a (S (length pages) + 3) [] =
    (df ← pd_concat ((λ p, p.1.1) <$> pages ++ [last]);
     normalize Examples.parse_utc Examples.known_zone (tz a) (timezone a)
       (default [] (all_columns last.2)) df)
    ([] ++ page_events Examples.version self a None None (initial_state a)
             (pages ++ [last])).
Proof.
  apply (get_dataset_served Examples.two_pages Examples.version Examples.handle_date
           Examples.read_csv Examples.parse_utc Examples.known_zone
           (Examples.client "json" 3) Examples.args None None
           [Examples.page 2 true (Some "c1")] (Examples.page 1 false None) [] 3).
  - reflexivity.
  - simpl. lia.
  - simpl. lia.
  - reflexivity.
  - reflexivity.
  - reflexivity.
  - split; [by vm_compute|]. split; [by vm_compute|exact I].
  - repeat constructor.
  - reflexivity.
Defined.
